(** * Verification of the ICO decision-notice scraper (src/scraper/scraper.py)

    The development is a shallow embedding of [scraper.py]:

    - Python [str] values are Rocq strings, read as sequences of code points
      below 256; the string primitives the scraper calls ([str.strip],
      [str.split(',', 1)], [", ".join], [os.path.join], [os.path.basename],
      [datetime.strptime] with the format ["%d %B %Y"], [date.strftime] with
      ["%Y-%m-%d"]) are modelled in the modules [PyStr], [PosixPath] and
      [PyDate] after the CPython library code they stand for;
    - the outside world (search API, detail pages, PDF downloads, file-system
      failures) is a record of oracles indexed by the number of the request,
      so a run is a function of the world; the program state is a clock, the
      file contents, and the trace of prints and I/O calls;
    - exceptions are an error monad over that state, [try]/[except] is a
      handler that looks at the exception class.

    What the embedding takes from the environment:

    - records of the API are typed as the API documents them (string fields
      that may be absent, a list of [{status, section}] objects); an answer
      with [null] or a value of another type in such a place is outside the
      model;
    - [print] and [f.write] on an open file succeed: standard output accepts
      every text and the disk does not fill up while a file is written
      ([open] itself may fail);
    - [date.strftime] is the one of CPython up to 3.12 on Linux, where the C
      library writes [%Y] without padding. *)

From Stdlib Require Import Ascii String ZArith Lia List Bool Arith.
From stdpp Require Import base option list gmap strings pretty.

#[local] Arguments String.append !s1 s2 : simpl nomatch.
#[local] Open Scope Z_scope.

(* ===================================================================== *)
(** ** Python string primitives *)
(* ===================================================================== *)

Module PyStr.

(** [ord(c)] *)
Definition code (c : ascii) : Z := Z.of_nat (nat_of_ascii c).

(** [chr(n)] *)
Definition chr (n : Z) : ascii := ascii_of_nat (Z.to_nat n).

(** [lo <= ord(c) <= hi] *)
Definition in_range (lo hi : Z) (c : ascii) : bool :=
  (lo <=? code c) && (code c <=? hi).

(** [Py_UNICODE_ISSPACE] on code points below 256: this is what
    [str.strip()] removes and what [\s] matches in a [str] pattern. *)
Definition isspace (c : ascii) : bool :=
  in_range 9 13 c || in_range 28 32 c
  || (code c =? 133) || (code c =? 160).

(** [\d] in a [str] pattern: the decimal digits (below 256 only 0-9). *)
Definition isdigit (c : ascii) : bool := in_range 48 57 c.

(** [ord(c) - ord('0')] *)
Definition digit_value (c : ascii) : Z := code c - 48.

(** [chr(ord('0') + n)] *)
Definition digit_char (n : Z) : ascii := chr (48 + n).

(** Lower-casing of one character, as far as it matters when a character
    is compared with an ASCII letter. *)
Definition lower_char (c : ascii) : ascii :=
  if in_range 65 90 c then chr (code c + 32) else c.

Fixpoint lower (s : string) : string :=
  match s with
  | EmptyString => EmptyString
  | String c s' => String (lower_char c) (lower s')
  end.

(** Truthiness of a [str]: [if s:] *)
Definition truthy (s : string) : bool :=
  match s with EmptyString => false | String _ _ => true end.

Fixpoint all_chars (p : ascii -> bool) (s : string) : bool :=
  match s with
  | EmptyString => true
  | String c s' => p c && all_chars p s'
  end.

Fixpoint lstrip (s : string) : string :=
  match s with
  | EmptyString => EmptyString
  | String c s' => if isspace c then lstrip s' else s
  end.

Fixpoint rstrip (s : string) : string :=
  match s with
  | EmptyString => EmptyString
  | String c s' =>
      match rstrip s' with
      | EmptyString => if isspace c then EmptyString else String c EmptyString
      | r => String c r
      end
  end.

(** [s.strip()] *)
Definition strip (s : string) : string := rstrip (lstrip s).

(** Position of the first [sep]: the text before it and the text after. *)
Fixpoint partition (sep : ascii) (s : string) : option (string * string) :=
  match s with
  | EmptyString => None
  | String c s' =>
      if Ascii.eqb c sep then Some (EmptyString, s')
      else match partition sep s' with
           | Some (a, b) => Some (String c a, b)
           | None => None
           end
  end.

(** [s.split(sep, 1)] for a one-character separator. *)
Definition split1 (sep : ascii) (s : string) : list string :=
  match partition sep s with
  | Some (a, b) => [a; b]
  | None => [s]
  end.

(** [sep.join(l)] *)
Fixpoint join (sep : string) (l : list string) : string :=
  match l with
  | [] => ""
  | [x] => x
  | x :: l' => x +:+ sep +:+ join sep l'
  end.

(** [s.startswith(c)] and [s.endswith(c)] for one character. *)
Definition startswith (c : ascii) (s : string) : bool :=
  match s with String c' _ => Ascii.eqb c' c | EmptyString => false end.

Fixpoint endswith (c : ascii) (s : string) : bool :=
  match s with
  | EmptyString => false
  | String c' EmptyString => Ascii.eqb c' c
  | String _ s' => endswith c s'
  end.

Fixpoint contains (c : ascii) (s : string) : bool :=
  match s with
  | EmptyString => false
  | String c' s' => Ascii.eqb c' c || contains c s'
  end.


(** [s.startswith(p)] *)
Fixpoint has_prefix (p s : string) : bool :=
  match p, s with
  | EmptyString, _ => true
  | String a p', String b s' => Ascii.eqb a b && has_prefix p' s'
  | String _ _, EmptyString => false
  end.

End PyStr.

(* ===================================================================== *)
(** ** [os.path] on POSIX *)
(* ===================================================================== *)

Module PosixPath.

(** [os.path.join(a, b)] *)
Definition join (a b : string) : string :=
  if PyStr.startswith "/" b then b
  else if negb (PyStr.truthy a) || PyStr.endswith "/" a then a +:+ b
  else a +:+ "/" +:+ b.

(** [os.path.basename(p)]: what follows the last slash. *)
Fixpoint basename (p : string) : string :=
  match p with
  | EmptyString => EmptyString
  | String c p' =>
      if PyStr.contains "/" p then basename p' else p
  end.

End PosixPath.

(* ===================================================================== *)
(** ** Exceptions *)
(* ===================================================================== *)

(** The exception classes that can reach the scraper's handlers.  All of
    them derive from [Exception]. *)
Inductive exn_class :=
| ConnectionError          (* requests.exceptions.ConnectionError *)
| Timeout                  (* requests.exceptions.Timeout *)
| HTTPError                (* requests.exceptions.HTTPError, from raise_for_status *)
| ChunkedEncodingError     (* requests.exceptions.ChunkedEncodingError *)
| RequestsJSONDecodeError  (* requests.exceptions.JSONDecodeError *)
| JSONDecodeError          (* json.JSONDecodeError *)
| ValueError
| OSError
| AttributeError.

Record exn := Exn { exn_class_of : exn_class; exn_message : string }.

(** [isinstance(e, requests.exceptions.RequestException)] *)
Definition is_RequestException (e : exn) : bool :=
  match exn_class_of e with
  | ConnectionError | Timeout | HTTPError | ChunkedEncodingError
  | RequestsJSONDecodeError => true
  | _ => false
  end.

(** [isinstance(e, json.JSONDecodeError)] *)
Definition is_JSONDecodeError (e : exn) : bool :=
  match exn_class_of e with
  | RequestsJSONDecodeError | JSONDecodeError => true
  | _ => false
  end.

(** [isinstance(e, ValueError)] *)
Definition is_ValueError (e : exn) : bool :=
  match exn_class_of e with
  | ValueError | RequestsJSONDecodeError | JSONDecodeError => true
  | _ => false
  end.

Inductive result (A : Type) :=
| Ok (a : A)
| Raise (e : exn).
Arguments Ok {A} a.
Arguments Raise {A} e.

(* ===================================================================== *)
(** ** [datetime.date], [strptime("%d %B %Y")], [strftime("%Y-%m-%d")] *)
(* ===================================================================== *)

Module PyDate.
Import PyStr.

Record date := Date { year : Z; month : Z; day : Z }.

Definition is_leap (y : Z) : bool :=
  (y mod 4 =? 0) && (negb (y mod 100 =? 0) || (y mod 400 =? 0)).

Definition days_in_month (y m : Z) : Z :=
  match m with
  | 1 | 3 | 5 | 7 | 8 | 10 | 12 => 31
  | 4 | 6 | 9 | 11 => 30
  | 2 => if is_leap y then 29 else 28
  | _ => 0
  end.

(** The checks of the [date(year, month, day)] constructor
    ([MINYEAR = 1], [MAXYEAR = 9999]). *)
Definition valid_date (y m d : Z) : bool :=
  (1 <=? y) && (y <=? 9999) && (1 <=? m) && (m <=? 12)
  && (1 <=? d) && (d <=? days_in_month y m).

Definition make_date (y m d : Z) : result date :=
  if valid_date y m d then Ok (Date y m d)
  else Raise (Exn ValueError "date value out of range").

(** *** The regular expression of the format

    [_strptime.py] turns ["%d %B %Y"] into the pattern
[[
 (?P<d>3[0-1]|[1-2]\d|0[1-9]|[1-9]| [1-9])\s+
 (?P<B>september|february|november|december|january|october|august|
       march|april|june|july|may)\s+
 (?P<Y>\d\d\d\d)
]]
    compiled with [IGNORECASE], and applies it with [match].  The matcher
    below is the backtracking search in continuation-passing style: each
    piece takes the continuation that matches what follows it, tries its
    alternatives in the order of the pattern and yields the first one for
    which the continuation succeeds. *)

(** A fixed run of character classes, each class a range of code points.
    Yields the text matched and the rest. *)
Fixpoint re_classes (cls : list (Z * Z)) (s : string)
  : option (string * string) :=
  match cls with
  | [] => Some (EmptyString, s)
  | (lo, hi) :: cls' =>
      match s with
      | String c s' =>
          if in_range lo hi c then
            match re_classes cls' s' with
            | Some (t, r) => Some (String c t, r)
            | None => None
            end
          else None
      | EmptyString => None
      end
  end.

(** A literal (given in lower case) under [IGNORECASE]. *)
Fixpoint re_literal (lit : string) (s : string) : option (string * string) :=
  match lit with
  | EmptyString => Some (EmptyString, s)
  | String l lit' =>
      match s with
      | String c s' =>
          if Ascii.eqb (lower_char c) l then
            match re_literal lit' s' with
            | Some (t, r) => Some (String c t, r)
            | None => None
            end
          else None
      | EmptyString => None
      end
  end.

(** [(?P<g>a1|a2|...)]: the first alternative after which the
    continuation succeeds. *)
Fixpoint re_alt {A} (alts : list (string -> option (string * string)))
    (k : string -> string -> option A) (s : string) : option A :=
  match alts with
  | [] => None
  | a :: alts' =>
      match a s with
      | Some (t, r) =>
          match k t r with
          | Some x => Some x
          | None => re_alt alts' k s
          end
      | None => re_alt alts' k s
      end
  end.

(** [\s*], greedy: take one more space if the whole match then succeeds,
    else go on from here. *)
Fixpoint re_spaces {A} (k : string -> option A) (s : string) : option A :=
  match s with
  | String c s' =>
      if isspace c then
        match re_spaces k s' with
        | Some x => Some x
        | None => k s
        end
      else k s
  | EmptyString => k s
  end.

(** [\s+] *)
Definition re_spaces1 {A} (k : string -> option A) (s : string) : option A :=
  match s with
  | String c s' => if isspace c then re_spaces k s' else None
  | EmptyString => None
  end.

(** [3[0-1]|[1-2]\d|0[1-9]|[1-9]| [1-9]] *)
Definition day_alternatives : list (list (Z * Z)) :=
  [ [(51, 51); (48, 49)];
    [(49, 50); (48, 57)];
    [(48, 48); (49, 57)];
    [(49, 57)];
    [(32, 32); (49, 57)] ].

(** [locale_time.f_month], English. *)
Definition f_month : list string :=
  [""; "january"; "february"; "march"; "april"; "may"; "june"; "july";
   "august"; "september"; "october"; "november"; "december"].

(** [sorted(f_month[1:], key=len, reverse=True)] *)
Definition month_alternatives : list string :=
  ["september"; "february"; "november"; "december"; "january"; "october";
   "august"; "march"; "april"; "june"; "july"; "may"].

(** [format_regex.match(data_string)]: the groups [d], [B], [Y] and the
    text after the end of the match. *)
Definition format_regex_match (s : string)
  : option (string * string * string * string) :=
  re_alt (map re_classes day_alternatives) (fun d r1 =>
    re_spaces1 (fun r2 =>
      re_alt (map re_literal month_alternatives) (fun b r3 =>
        re_spaces1 (fun r4 =>
          match re_classes [(48, 57); (48, 57); (48, 57); (48, 57)] r4 with
          | Some (y, rest) => Some (d, b, y, rest)
          | None => None
          end) r3) r2) r1) s.

(** [int(s)] on the text of a group: surrounding white space is dropped,
    the rest must be decimal digits. *)
Fixpoint digits_value (acc : Z) (s : string) : Z :=
  match s with
  | EmptyString => acc
  | String c s' => digits_value (10 * acc + digit_value c) s'
  end.

Definition int (s : string) : result Z :=
  let t := strip s in
  if truthy t && all_chars isdigit t then Ok (digits_value 0 t)
  else Raise (Exn ValueError "invalid literal for int() with base 10").

(** [l.index(x)] *)
Fixpoint index (x : string) (l : list string) : result Z :=
  match l with
  | [] => Raise (Exn ValueError "x not in list")
  | y :: l' =>
      if String.eqb y x then Ok 0
      else match index x l' with
           | Ok i => Ok (i + 1)
           | Raise e => Raise e
           end
  end.

(** [datetime.strptime(s, "%d %B %Y").date()] *)
Definition strptime (s : string) : result date :=
  match format_regex_match s with
  | None => Raise (Exn ValueError "time data does not match format")
  | Some (d, b, y, rest) =>
      if truthy rest then Raise (Exn ValueError "unconverted data remains")
      else
        match int y, index (lower b) f_month, int d with
        | Ok year, Ok month, Ok day => make_date year month day
        | Raise e, _, _ => Raise e
        | _, Raise e, _ => Raise e
        | _, _, Raise e => Raise e
        end
  end.

(** [%m], [%d]: two digits; [%Y]: four digits. *)
Definition pad2 (n : Z) : string :=
  String (digit_char (n / 10 mod 10)) (String (digit_char (n mod 10)) EmptyString).

Definition pad4 (n : Z) : string :=
  String (digit_char (n / 1000 mod 10))
    (String (digit_char (n / 100 mod 10)) (pad2 n)).

(** [%Y] as the C library of Linux writes it: the decimal digits of the
    year without padding, so fewer than four below the year 1000.  The
    years of a [date] are 1 to 9999. *)
Definition format_Y (y : Z) : string :=
  if y <? 10 then String (digit_char (y mod 10)) EmptyString
  else if y <? 100 then pad2 y
  else if y <? 1000 then String (digit_char (y / 100 mod 10)) (pad2 y)
  else pad4 y.

(** [d.strftime("%Y-%m-%d")] *)
Definition strftime (d : date) : string :=
  format_Y (year d) +:+ "-" +:+ pad2 (month d) +:+ "-" +:+ pad2 (day d).

End PyDate.

(* ===================================================================== *)
(** ** Data structures *)
(* ===================================================================== *)

(** One entry of [filterItemDecisions]; [None] is a missing key. *)
Record decision_item := DecisionItem {
  status : option string;
  section : option string
}.

(** One element of the [results] array of the search API. *)
Record item := Item {
  title : option string;
  item_url : option string;
  description : option string;
  filterItemMetaData : option string;
  filterItemDecisions : option (list decision_item)
}.

(** The dictionary [get_data_from_json_api] builds for a notice
    (lines 140-147). *)
Record notice_data := NoticeData {
  organisation : string;
  date : option PyDate.date;
  sector : string;
  decision : string;
  abstract : string;
  url : string
}.

(** The decoded body of a search response: a JSON object, of which only the
    [results] key is read, or some other JSON value. *)
Inductive json_data :=
| JsonObject (results : option (list item))
| JsonOther.

(* ===================================================================== *)
(** ** Configuration (lines 29-34) *)
(* ===================================================================== *)

Definition BASE_URL : string := "https://ico.org.uk".
Definition SEARCH_API_URL : string := "https://ico.org.uk/api/search".
Definition DATA_DIR : string := "ico-decision-notice/data".
Definition START_PAGE : Z := 1.
Definition MAX_PAGES : Z := 1.

(* ===================================================================== *)
(** ** The world, the state and the monad *)
(* ===================================================================== *)

(** What the program prints, one constructor per [print] of the source. *)
Inductive message :=
| MsgScrapingUpTo (total_pages : Z)                  (* line 63 *)
| MsgScrapingPage (page_num total_pages : Z)         (* line 66 *)
| MsgNoMoreNotices (page_num : Z)                    (* line 72 *)
| MsgReachedEnd (last_page : Z)                      (* line 74 *)
| MsgScrapingDetail (detail_url : string)            (* line 80 *)
| MsgErrorDetail (detail_url : string) (e : exn)     (* line 86 *)
| MsgErrorPage (page_num : Z) (e : exn)              (* line 89 *)
| MsgJsonData (json : json_data)                     (* line 103 *)
| MsgCouldNotParseDate (date_str_raw : string)       (* line 129 *)
| MsgErrorFetching (page_num : Z) (e : exn)          (* line 151 *)
| MsgErrorDecoding (page_num : Z) (e : exn)          (* line 153 *)
| MsgMetadataSaved (metadata_path : string)          (* line 196 *)
| MsgPdfSaved (pdf_path : string)                    (* line 206 *)
| MsgPdfFailed (pdf_url : string) (e : exn).         (* line 208 *)

(** Prints and calls that reach outside the process, in program order. *)
Inductive event :=
| Print (m : message)
| RequestsPost (api_url : string) (page_num : Z)
| RequestsGet (target : string) (stream : bool)
| Makedirs (path : string)
| Open (path : string)
| Write (path : string) (data : string)
| Sleep (secs : Z).

Record search_response := SearchResponse {
  search_status : Z;
  search_json : result json_data           (* what [response.json()] does *)
}.

(** A detail page: its status and what [soup.find('further-reading')]
    finds in it, a tag with its attributes or nothing. *)
Record page_response := PageResponse {
  page_status : Z;
  further_reading : option (gmap string string)
}.

(** A streamed download: the chunks [iter_content] yields, and the
    exception it raises after them when the transfer breaks. *)
Record stream_response := StreamResponse {
  stream_status : Z;
  stream_chunks : list string;
  stream_error : option exn
}.

(** The answers of the outside world.  The first argument is the number of
    the request: the same URL may be answered differently each time. *)
Record world := World {
  post_answer : nat -> Z -> result search_response;
  get_answer : nat -> string -> result page_response;
  stream_answer : nat -> string -> result stream_response;
  makedirs_error : nat -> string -> option exn;
  open_error : nat -> string -> option exn
}.

Record state := State {
  clock : nat;
  files : gmap string string;
  trace : list event
}.

Definition initial_state : state := State 0 ∅ [].

Definition M (A : Type) : Type := state -> result A * state.

Definition ret {A} (a : A) : M A := fun st => (Ok a, st).

Definition bind {A B} (m : M A) (k : A -> M B) : M B :=
  fun st =>
    match m st with
    | (Ok a, st') => k a st'
    | (Raise e, st') => (Raise e, st')
    end.

Definition raise {A} (e : exn) : M A := fun st => (Raise e, st).

(** [try: body / except ...:]; [handlers e] is the body of the first
    [except] clause that matches [e], if there is one. *)
Definition try_except {A} (body : M A) (handlers : exn -> option (M A)) : M A :=
  fun st =>
    match body st with
    | (Ok a, st') => (Ok a, st')
    | (Raise e, st') =>
        match handlers e with
        | Some h => h st'
        | None => (Raise e, st')
        end
    end.

Declare Scope py_scope.
Delimit Scope py_scope with py.
Notation "x <- c1 ;; c2" := (bind c1 (fun x => c2))
  (at level 100, c1 at next level, right associativity) : py_scope.
Notation "c1 ;; c2" := (bind c1 (fun _ => c2))
  (at level 100, right associativity) : py_scope.

Definition emit (e : event) : M unit :=
  fun st => (Ok tt, State (clock st) (files st) (trace st ++ [e])).

Definition print (m : message) : M unit := emit (Print m).

(** The number of this request. *)
Definition tick : M nat :=
  fun st => (Ok (clock st), State (S (clock st)) (files st) (trace st)).

Definition lift {A} (r : result A) : M A :=
  match r with Ok a => ret a | Raise e => raise e end.

Definition set_file (path data : string) : M unit :=
  fun st => (Ok tt, State (clock st) (<[path := data]> (files st)) (trace st)).

Definition get_file (path : string) : M string :=
  fun st => (Ok (default "" (files st !! path)), st).

(** [time.sleep(secs)] *)
Definition sleep (secs : Z) : M unit := emit (Sleep secs).

(** [response.raise_for_status()]: [HTTPError] for 4xx and 5xx. *)
Definition raise_for_status (status_code : Z) : M unit :=
  if (400 <=? status_code) && (status_code <? 600)
  then raise (Exn HTTPError "Client Error or Server Error")
  else ret tt.

(** [urljoin(base, url)] of [urllib.parse]: its two early returns are
    written out; [url_resolve] is the rest of the function, on a non-empty
    base and a non-empty reference: the resolved URL (RFC 3986), or the
    [ValueError] that [urlsplit] raises for a reference it rejects (a
    bracket without its partner in the host part, as in ["//["]). *)
Definition urljoin (url_resolve : string -> string -> result string)
    (base url : string) : result string :=
  if negb (PyStr.truthy base) then Ok url
  else if negb (PyStr.truthy url) then Ok base
  else url_resolve base url.

(** [range(a, b)] *)
Definition range (a b : Z) : list Z := seqZ a (b - a).

(* ===================================================================== *)
(** ** The program *)
(* ===================================================================== *)

Section Scraper.
Variable url_resolve : string -> string -> result string.
Variable w : world.
#[local] Open Scope py_scope.

(** *** I/O primitives *)

(** [requests.post(SEARCH_API_URL, headers=API_HEADERS, json=payload)] *)
Definition requests_post (page_num : Z) : M search_response :=
  t <- tick ;;
  emit (RequestsPost SEARCH_API_URL page_num) ;;
  lift (post_answer w t page_num).

(** [requests.get(url, headers=headers)] *)
Definition requests_get (target : string) : M page_response :=
  t <- tick ;;
  emit (RequestsGet target false) ;;
  lift (get_answer w t target).

(** [requests.get(url, headers=headers, stream=True)] *)
Definition requests_get_stream (target : string) : M stream_response :=
  t <- tick ;;
  emit (RequestsGet target true) ;;
  lift (stream_answer w t target).

(** [os.makedirs(path, exist_ok=True)] *)
Definition os_makedirs (path : string) : M unit :=
  t <- tick ;;
  emit (Makedirs path) ;;
  match makedirs_error w t path with
  | Some e => raise e
  | None => ret tt
  end.

(** [open(path, 'w')] and [open(path, 'wb')]: the file is created or
    truncated. *)
Definition open_w (path : string) : M unit :=
  t <- tick ;;
  emit (Open path) ;;
  match open_error w t path with
  | Some e => raise e
  | None => set_file path ""
  end.

(** [f.write(data)] on the file opened at [path] *)
Definition f_write (path data : string) : M unit :=
  emit (Write path data) ;;
  old <- get_file path ;;
  set_file path (old +:+ data).

(** *** [get_data_from_json_api] (lines 92-154) *)

(** Lines 112-122: the date text and the sector of [filterItemMetaData]. *)
Definition parse_filter_meta (filter_meta : string) : string * string :=
  let date_str_raw := "" in
  let sector := "Not found" in
  if PyStr.truthy filter_meta then
    let parts := PyStr.split1 "," filter_meta in
    let date_str_raw :=
      match parts with
      | p0 :: _ => PyStr.strip p0
      | [] => date_str_raw
      end in
    let sector :=
      if (1 <? Z.of_nat (length parts))
      then PyStr.strip (nth 1 parts "")
      else sector in
    (date_str_raw, sector)
  else (date_str_raw, sector).

(** Lines 124-129 *)
Definition parse_date (date_str_raw : string) : M (option PyDate.date) :=
  if PyStr.truthy date_str_raw then
    try_except
      (d <- lift (PyDate.strptime date_str_raw) ;; ret (Some d))
      (fun e =>
         if is_ValueError e
         then Some (print (MsgCouldNotParseDate date_str_raw) ;; ret None)
         else None)
  else ret None.

(** Lines 132-137 *)
Fixpoint decisions_loop (dec_items : list decision_item)
    (decisions : list string) : list string :=
  match dec_items with
  | [] => decisions
  | dec_item :: rest =>
      let status := default "" (status dec_item) in
      let section := default "" (section dec_item) in
      if PyStr.truthy status && PyStr.truthy section
      then decisions_loop rest (decisions ++ [section +:+ ": " +:+ status])
      else decisions_loop rest decisions
  end.

(** Lines 132-138 *)
Definition decision_str (dec_items : list decision_item) : string :=
  let decisions := decisions_loop dec_items [] in
  match decisions with
  | [] => "Not found"
  | _ => PyStr.join ", " decisions
  end.

(** Lines 106-147 *)
Fixpoint items_loop (items : list item) (notices_data : list notice_data)
  : M (list notice_data) :=
  match items with
  | [] => ret notices_data
  | item :: rest =>
      let organisation := default "Unknown Organisation" (title item) in
      let detail_url_path := default "" (item_url item) in
      let abstract := default "" (description item) in
      let filter_meta := default "" (filterItemMetaData item) in
      let '(date_str_raw, sector) := parse_filter_meta filter_meta in
      parsed_date <- parse_date date_str_raw ;;
      let decision_str := decision_str (default [] (filterItemDecisions item)) in
      items_loop rest
        (notices_data ++
           [NoticeData organisation parsed_date sector decision_str
              abstract detail_url_path])
  end.

Definition get_data_from_json_api (page_num : Z) : M (list notice_data) :=
  try_except
    (response <- requests_post page_num ;;
     raise_for_status (search_status response) ;;
     json_data <- lift (search_json response) ;;
     print (MsgJsonData json_data) ;;
     match json_data with
     | JsonObject results => items_loop (default [] results) []
     | JsonOther =>
         raise (Exn AttributeError "object has no attribute 'get'")
     end)
    (fun e =>
       if is_RequestException e
       then Some (print (MsgErrorFetching page_num e) ;; ret [])
       else if is_JSONDecodeError e
       then Some (print (MsgErrorDecoding page_num e) ;; ret [])
       else None).

(** *** [scrape_detail_page] (lines 157-208) *)

(** Lines 174-181: the link and the file name, or the exception of
    [urljoin] (line 179). *)
Definition pdf_link (further_reading_tag : option (gmap string string))
  : result (string * string) :=
  let pdf_url := "Not found" in
  let pdf_filename := "document.pdf" in
  match further_reading_tag with
  | Some attrs =>
      match attrs !! "x-href" with
      | Some relative_pdf_url =>
          match urljoin url_resolve BASE_URL relative_pdf_url with
          | Ok pdf_url =>
              if PyStr.truthy relative_pdf_url
              then Ok (pdf_url, PosixPath.basename relative_pdf_url)
              else Ok (pdf_url, pdf_filename)
          | Raise e => Raise e
          end
      | None => Ok (pdf_url, pdf_filename)
      end
  | None => Ok (pdf_url, pdf_filename)
  end.

Definition LF : string := String "010" EmptyString.

(** The text of the [Date:] line (line 190). *)
Definition date_text (parsed_date : option PyDate.date) : string :=
  match parsed_date with
  | Some d => PyDate.strftime d
  | None => "N/A"
  end.

(** Lines 188-194 *)
Definition write_metadata (metadata_path : string) (organisation : string)
    (parsed_date : option PyDate.date)
    (sector decision abstract pdf_url : string) : M unit :=
  open_w metadata_path ;;
  f_write metadata_path ("Organisation: " +:+ organisation +:+ LF) ;;
  f_write metadata_path ("Date: " +:+ date_text parsed_date +:+ LF) ;;
  f_write metadata_path ("Sector: " +:+ sector +:+ LF) ;;
  f_write metadata_path ("Decision: " +:+ decision +:+ LF) ;;
  f_write metadata_path ("Abstract: " +:+ abstract +:+ LF) ;;
  f_write metadata_path ("PDF URL: " +:+ pdf_url +:+ LF).

(** Lines 204-205 *)
Fixpoint write_chunks (pdf_path : string) (chunks : list string) : M unit :=
  match chunks with
  | [] => ret tt
  | chunk :: rest => f_write pdf_path chunk ;; write_chunks pdf_path rest
  end.

(** Lines 198-208 *)
Definition download_pdf (case_dir pdf_url pdf_filename : string) : M unit :=
  if negb (String.eqb pdf_url "Not found") then
    let pdf_path := PosixPath.join case_dir pdf_filename in
    try_except
      (pdf_response <- requests_get_stream pdf_url ;;
       raise_for_status (stream_status pdf_response) ;;
       open_w pdf_path ;;
       write_chunks pdf_path (stream_chunks pdf_response) ;;
       match stream_error pdf_response with
       | Some e => raise e
       | None => ret tt
       end ;;
       print (MsgPdfSaved pdf_path))
      (fun e =>
         if is_RequestException e
         then Some (print (MsgPdfFailed pdf_url e))
         else None)
  else ret tt.

(** [f"case-{case_counter}"] under [DATA_DIR] (line 184) *)
Definition case_dir_of (case_counter : Z) : string :=
  PosixPath.join DATA_DIR ("case-" +:+ pretty case_counter).

Definition scrape_detail_page (target : string) (case_counter : Z)
    (notice_data_from_api : notice_data) : M unit :=
  let organisation := organisation notice_data_from_api in
  let parsed_date := date notice_data_from_api in
  let sector := sector notice_data_from_api in
  let decision := decision notice_data_from_api in
  let abstract := abstract notice_data_from_api in
  response <- requests_get target ;;
  raise_for_status (page_status response) ;;
  link <- lift (pdf_link (further_reading response)) ;;
  let '(pdf_url, pdf_filename) := link in
  let case_dir := case_dir_of case_counter in
  os_makedirs case_dir ;;
  let metadata_path := PosixPath.join case_dir "metadata.txt" in
  write_metadata metadata_path organisation parsed_date sector decision
    abstract pdf_url ;;
  print (MsgMetadataSaved metadata_path) ;;
  download_pdf case_dir pdf_url pdf_filename.

(** *** [scrape_all_notices] (lines 54-89) *)

(** Lines 78-86.  [case_counter] is a local variable of
    [scrape_all_notices]: the loop yields the value it has when the loop
    ends, together with the exception that ended it, if one did.  Line 79
    stands outside the [try] of line 81, so an exception of [urljoin]
    ends the loop; whatever [scrape_detail_page] raises is caught at line
    85. *)
Fixpoint notices_loop (notices : list notice_data) (case_counter : Z)
  : M (Z * option exn) :=
  match notices with
  | [] => ret (case_counter, None)
  | notice_data :: rest =>
      match urljoin url_resolve BASE_URL (url notice_data) with
      | Raise e => ret (case_counter, Some e)
      | Ok detail_url =>
          print (MsgScrapingDetail detail_url) ;;
          case_counter <-
            try_except
              (scrape_detail_page detail_url case_counter notice_data ;;
               let case_counter := case_counter + 1 in
               sleep 1 ;;
               ret case_counter)
              (fun e => Some (print (MsgErrorDetail detail_url e) ;;
                              ret case_counter)) ;;
          notices_loop rest case_counter
      end
  end.

(** How the body of the page loop ends. *)
Inductive loop_exit := Continue | Break.

(** Lines 66-89: one iteration of the page loop.  The body of the [try]
    of line 67 yields how the iteration ends, the value of [case_counter]
    then, and the exception that reached line 88, if one did; the handler
    of lines 88-89 prints it and the loop goes on. *)
Definition page_body (start_page total_pages page_num case_counter : Z)
  : M (loop_exit * Z) :=
  print (MsgScrapingPage page_num total_pages) ;;
  r <- try_except
         (notices_data_from_api <- get_data_from_json_api page_num ;;
          match notices_data_from_api with
          | [] =>
              print (MsgNoMoreNotices page_num) ;;
              if page_num >? start_page then
                print (MsgReachedEnd (page_num - 1)) ;;
                ret (Break, case_counter, None)
              else ret (Continue, case_counter, None)
          | _ =>
              r <- notices_loop notices_data_from_api case_counter ;;
              ret (Continue, fst r, snd r)
          end)
         (fun e => Some (ret (Continue, case_counter, Some e))) ;;
  match r with
  | (exit, case_counter, None) => ret (exit, case_counter)
  | (_, case_counter, Some e) =>
      print (MsgErrorPage page_num e) ;;
      ret (Continue, case_counter)
  end.

(** Line 65: [for page_num in pages] *)
Fixpoint pages_loop (start_page total_pages : Z) (pages : list Z)
    (case_counter : Z) : M Z :=
  match pages with
  | [] => ret case_counter
  | page_num :: rest =>
      r <- page_body start_page total_pages page_num case_counter ;;
      match r with
      | (Break, case_counter) => ret case_counter
      | (Continue, case_counter) =>
          pages_loop start_page total_pages rest case_counter
      end
  end.

(** [scrape_all_notices] with the two page constants as arguments; the
    result is the final value of [case_counter]. *)
Definition scrape_pages (start_page max_pages : Z) : M Z :=
  os_makedirs DATA_DIR ;;
  let case_counter := 1 in
  let total_pages := max_pages in
  print (MsgScrapingUpTo total_pages) ;;
  pages_loop start_page total_pages
    (range start_page (total_pages + 1)) case_counter.

Definition scrape_all_notices : M Z := scrape_pages START_PAGE MAX_PAGES.

End Scraper.

(** The notice that lines 107-147 build from one result: the fields with
    their defaults, the date parsed or absent. *)
Definition normalizes (it : item) (n : notice_data) : Prop :=
  let meta := parse_filter_meta (default "" (filterItemMetaData it)) in
  organisation n = default "Unknown Organisation" (title it)
  /\ url n = default "" (item_url it)
  /\ abstract n = default "" (description it)
  /\ sector n = snd meta
  /\ date n = (if PyStr.truthy (fst meta)
               then match PyDate.strptime (fst meta) with
                    | Ok d => Some d
                    | Raise _ => None
                    end
               else None)
  /\ decision n = decision_str (default [] (filterItemDecisions it)).

(* ===================================================================== *)
(** ** Notions the specification uses *)
(* ===================================================================== *)

Module Spec.
Import PyStr PyDate.

(** *** Dates *)

(** The full English month names. *)
Definition month_names : list string :=
  ["January"; "February"; "March"; "April"; "May"; "June"; "July";
   "August"; "September"; "October"; "November"; "December"].

Definition month_name (m : Z) : string :=
  nth (Z.to_nat (m - 1)) month_names "".

(** The day of the month without padding. *)
Definition day_D (d : Z) : string :=
  if d <? 10 then String (digit_char d) EmptyString else pad2 d.

(** The text ["D Month YYYY"] of a calendar date. *)
Definition D_Month_YYYY (y m d : Z) : string :=
  day_D d +:+ " " +:+ month_name m +:+ " " +:+ pad4 y.

(** Reading ["YYYY-MM-DD"] back: year, month and day. *)
Definition read_iso (s : string) : option (Z * Z * Z) :=
  match s with
  | String y1 (String y2 (String y3 (String y4 (String "-"
      (String m1 (String m2 (String "-"
        (String d1 (String d2 EmptyString))))))))) =>
      if forallb isdigit [y1; y2; y3; y4; m1; m2; d1; d2] then
        Some (1000 * digit_value y1 + 100 * digit_value y2
              + 10 * digit_value y3 + digit_value y4,
              10 * digit_value m1 + digit_value m2,
              10 * digit_value d1 + digit_value d2)
      else None
  | _ => None
  end.

(** The text [t] is matched by the run of character classes [cls]. *)
Fixpoint in_classes (cls : list (Z * Z)) (t : string) : bool :=
  match cls, t with
  | [], EmptyString => true
  | (lo, hi) :: cls', String c t' => in_range lo hi c && in_classes cls' t'
  | _, _ => false
  end.

(** The literal [lit] and the text [name] differ at some position that
    both have. *)
Fixpoint mismatch (lit name : string) : bool :=
  match lit, name with
  | String a lit', String b name' =>
      if Ascii.eqb b a then mismatch lit' name' else true
  | _, _ => false
  end.

(** The texts the directive [%d] stands for. *)
Inductive day_text : Z -> string -> Prop :=
| day_plain d : 1 <= d <= 9 ->
    day_text d (String (digit_char d) EmptyString)
| day_zero d : 1 <= d <= 9 ->
    day_text d (String "0" (String (digit_char d) EmptyString))
| day_blank d : 1 <= d <= 9 ->
    day_text d (String " " (String (digit_char d) EmptyString))
| day_two d : 10 <= d <= 31 ->
    day_text d (pad2 d).

(** A non-empty run of white space. *)
Definition spaces1 (ws : string) : Prop :=
  truthy ws = true /\ all_chars isspace ws = true.



(** *** Trimming *)

(** [t] is [s] without its leading and trailing white space. *)
Definition trimmed (s t : string) : Prop :=
  exists l r,
    s = l +:+ t +:+ r
    /\ all_chars isspace l = true /\ all_chars isspace r = true
    /\ lstrip t = t /\ rstrip t = t.

(** *** Decisions *)

(** An entry with a non-empty status and a non-empty section. *)
Definition valid_decision (d : decision_item) : bool :=
  match status d, section d with
  | Some st, Some sec => truthy st && truthy sec
  | _, _ => false
  end.

(** ["<section>: <status>"] *)
Definition fragment (d : decision_item) : string :=
  default "" (section d) +:+ ": " +:+ default "" (status d).

(** [s] is the texts [parts], in their order, with [sep] between each two
    of them and nowhere else. *)
Inductive joined (sep : string) : list string -> string -> Prop :=
| joined_one part : joined sep [part] part
| joined_more part parts s :
    joined sep parts s ->
    parts <> [] ->
    joined sep (part :: parts) (part +:+ sep +:+ s).

(** *** Case numbering *)

(** The directories of the records that were processed to the end, in
    the order of the run: a record is followed by the pacing sleep of
    line 84 exactly when [scrape_detail_page] returned, and its directory
    is the last one created before that (line 185). *)
Fixpoint completed_case_dirs (cur : option string) (tr : list event)
  : list string :=
  match tr with
  | [] => []
  | Makedirs p :: tr' => completed_case_dirs (Some p) tr'
  | Sleep _ :: tr' =>
      match cur with
      | Some p => p :: completed_case_dirs None tr'
      | None => completed_case_dirs None tr'
      end
  | _ :: tr' => completed_case_dirs cur tr'
  end.

(** Events that neither create a directory nor pause. *)
Definition is_quiet (e : event) : bool :=
  match e with
  | Makedirs _ | Sleep _ => false
  | _ => true
  end.

(** The directories [case-c], [case-(c+1)], ... of [n] cases. *)
Fixpoint case_dirs_from (c : Z) (n : nat) : list string :=
  match n with
  | O => []
  | S n' => case_dir_of c :: case_dirs_from (c + 1) n'
  end.

(** The stretch [delta] of a trace completes [n] records, in the
    directories numbered from [c] on. *)
Definition completes (delta : list event) (c : Z) (n : nat) : Prop :=
  forall cur, exists cur', forall tl,
    completed_case_dirs cur (delta ++ tl)
    = case_dirs_from c n ++ completed_case_dirs cur' tl.

(** What [get_data_from_json_api] prints. *)
Definition is_api_print (e : event) : bool :=
  match e with
  | Print (MsgJsonData _) | Print (MsgCouldNotParseDate _)
  | Print (MsgErrorFetching _ _) | Print (MsgErrorDecoding _ _) => true
  | _ => false
  end.

(** What processing the records of a page does and prints. *)
Definition is_record_event (e : event) : bool :=
  match e with
  | RequestsGet _ _ | Makedirs _ | Open _ | Write _ _ | Sleep _
  | Print (MsgScrapingDetail _) | Print (MsgErrorDetail _ _)
  | Print (MsgMetadataSaved _) | Print (MsgPdfSaved _)
  | Print (MsgPdfFailed _ _) => true
  | _ => false
  end.

(** Events of a record that neither create a directory nor pause. *)
Definition calm (q : list event) : Prop :=
  forallb is_quiet q = true /\ forallb is_record_event q = true.

(** The page numbers sent to the search API, in order. *)
Fixpoint posted_pages (tr : list event) : list Z :=
  match tr with
  | [] => []
  | RequestsPost _ p :: tr' => p :: posted_pages tr'
  | _ :: tr' => posted_pages tr'
  end.

(** What one turn of the page loop leaves in the trace, how it ends and
    the case counter after it: the page had no results and was a later
    page, it had none and was the start page, it had results, the search
    raised, or joining the address of a record raised after some records. *)
Inductive page_trace (start_page total_pages page_num c : Z)
  : loop_exit -> Z -> list event -> Prop :=
| page_end q :
    forallb is_api_print q = true -> page_num > start_page ->
    page_trace start_page total_pages page_num c Break c
      (Print (MsgScrapingPage page_num total_pages)
       :: RequestsPost SEARCH_API_URL page_num
       :: q ++ [Print (MsgNoMoreNotices page_num);
                Print (MsgReachedEnd (page_num - 1))])
| page_empty_first q :
    forallb is_api_print q = true -> page_num <= start_page ->
    page_trace start_page total_pages page_num c Continue c
      (Print (MsgScrapingPage page_num total_pages)
       :: RequestsPost SEARCH_API_URL page_num
       :: q ++ [Print (MsgNoMoreNotices page_num)])
| page_records q recs n :
    forallb is_api_print q = true ->
    forallb is_record_event recs = true ->
    completes recs c n ->
    page_trace start_page total_pages page_num c Continue (c + Z.of_nat n)
      (Print (MsgScrapingPage page_num total_pages)
       :: RequestsPost SEARCH_API_URL page_num
       :: q ++ recs)
| page_error q e :
    forallb is_api_print q = true ->
    page_trace start_page total_pages page_num c Continue c
      (Print (MsgScrapingPage page_num total_pages)
       :: RequestsPost SEARCH_API_URL page_num
       :: q ++ [Print (MsgErrorPage page_num e)])
| page_records_error q recs n e :
    forallb is_api_print q = true ->
    forallb is_record_event recs = true ->
    completes recs c n ->
    page_trace start_page total_pages page_num c Continue (c + Z.of_nat n)
      (Print (MsgScrapingPage page_num total_pages)
       :: RequestsPost SEARCH_API_URL page_num
       :: q ++ recs ++ [Print (MsgErrorPage page_num e)]).

(** What the page loop leaves in the trace over the pages still to visit,
    with the case counter before and after: it stops at the first turn
    that ends in [Break]. *)
Inductive pages_trace (start_page total_pages : Z)
  : list Z -> Z -> Z -> list event -> Prop :=
| pages_done c : pages_trace start_page total_pages [] c c []
| pages_break p rest c c' d :
    page_trace start_page total_pages p c Break c' d ->
    pages_trace start_page total_pages (p :: rest) c c' d
| pages_continue p rest c c1 c2 d1 d2 :
    page_trace start_page total_pages p c Continue c1 d1 ->
    pages_trace start_page total_pages rest c1 c2 d2 ->
    pages_trace start_page total_pages (p :: rest) c c2 (d1 ++ d2).

(** The line printed for a page without results. *)
Definition is_no_more (e : event) : bool :=
  match e with
  | Print (MsgNoMoreNotices _) => true
  | _ => false
  end.

(** The six lines of [metadata.txt]. *)
Definition metadata_lines (organisation date_line sector decision abstract
    pdf_url : string) : list string :=
  [ "Organisation: " +:+ organisation;
    "Date: " +:+ date_line;
    "Sector: " +:+ sector;
    "Decision: " +:+ decision;
    "Abstract: " +:+ abstract;
    "PDF URL: " +:+ pdf_url ].

(** The content of [metadata.txt]: each line ended by a line feed. *)
Definition metadata_text (organisation date_line sector decision abstract
    pdf_url : string) : string :=
  String.concat ""
    (map (fun l => l +:+ LF)
       (metadata_lines organisation date_line sector decision abstract
          pdf_url)).

(** The events of writing [metadata.txt]: the file is opened and the six
    lines are written. *)
Definition metadata_events (path organisation date_line sector decision
    abstract pdf_url : string) : list event :=
  Open path
  :: map (fun l => Write path (l +:+ LF))
       (metadata_lines organisation date_line sector decision abstract
          pdf_url).

(** A download is a streamed GET. *)
Definition is_download (e : event) : bool :=
  match e with
  | RequestsGet _ true => true
  | _ => false
  end.

End Spec.

(* ===================================================================== *)
(** ** Example worlds *)
(* ===================================================================== *)

Module Examples.

(** Resolution of an absolute path against an origin.  The reference
    ["//["] opens a bracket in the host part and never closes it:
    [urlsplit] rejects it. *)
Definition resolve (base ref : string) : result string :=
  if String.eqb ref "//[" then Raise (Exn ValueError "Invalid IPv6 URL")
  else Ok (base +:+ ref).

(** A world that answers every request of a kind the same way and in
    which the file system never fails. *)
Definition world_of (post : result search_response)
    (page : result page_response) (stream : result stream_response) : world :=
  World (fun _ _ => post) (fun _ _ => page) (fun _ _ => stream)
    (fun _ _ => None) (fun _ _ => None).

Definition no_results : result search_response :=
  Ok (SearchResponse 200 (Ok (JsonObject (Some [])))).

Definition page_without_tag : result page_response :=
  Ok (PageResponse 200 None).

Definition page_with_href (href : string) : result page_response :=
  Ok (PageResponse 200 (Some {[ "x-href" := href ]})).

Definition no_stream : result stream_response :=
  Raise (Exn ConnectionError "connection refused").

Definition an_item : item :=
  Item (Some "Some Council") (Some "/decision/1") (Some "A complaint.")
    (Some "5 December 2025, Local government")
    (Some [DecisionItem (Some "Upheld") (Some "FOI 10")]).

Definition a_notice : notice_data :=
  NoticeData "Some Council" (Some (PyDate.Date 2025 12 5))
    "Local government" "FOI 10: Upheld" "A complaint." "/decision/1".

(** The search API is unreachable. *)
Definition world_api_down : world :=
  world_of (Raise (Exn ConnectionError "connection refused"))
    page_without_tag no_stream.

(** The search API answers with status 300 and a body with one result. *)
Definition world_status_300 : world :=
  world_of (Ok (SearchResponse 300 (Ok (JsonObject (Some [an_item])))))
    page_without_tag no_stream.

(** The detail page carries the tag with the given [x-href], and the
    download of the document breaks after the first chunk. *)
Definition world_broken_download (href : string) : world :=
  world_of no_results (page_with_href href)
    (Ok (StreamResponse 200 ["%PDF-1.7"]
           (Some (Exn ChunkedEncodingError "connection broken")))).

(** The detail page carries the tag with the given [x-href], and the
    download succeeds. *)
Definition world_download (href : string) : world :=
  world_of no_results (page_with_href href)
    (Ok (StreamResponse 200 ["%PDF-1.7"; "%%EOF"] None)).

(** The detail page has no [further-reading] tag. *)
Definition world_no_tag : world :=
  world_of no_results page_without_tag no_stream.

(** The search API answers with one result. *)
Definition world_one_result : world :=
  world_of (Ok (SearchResponse 200 (Ok (JsonObject (Some [an_item])))))
    page_without_tag no_stream.

(** The search API answers with a JSON array instead of an object. *)
Definition world_json_array : world :=
  world_of (Ok (SearchResponse 200 (Ok JsonOther))) page_without_tag no_stream.

(** The detail page links [/docs/report.pdf]; the document is served, but
    its file cannot be opened for writing. *)
Definition world_unwritable_document : world :=
  World (fun _ _ => no_results)
    (fun _ _ => page_with_href "/docs/report.pdf")
    (fun _ _ => Ok (StreamResponse 200 ["%PDF-1.7"; "%%EOF"] None))
    (fun _ _ => None)
    (fun _ path =>
       if String.eqb path "ico-decision-notice/data/case-1/report.pdf"
       then Some (Exn OSError "No space left on device")
       else None).

(** A result, and the notice made from it, with the given address. *)
Definition item_at (path : string) : item :=
  Item (Some "Some Council") (Some path) (Some "A complaint.")
    (Some "5 December 2025, Local government")
    (Some [DecisionItem (Some "Upheld") (Some "FOI 10")]).


(** Every page of the search has five results; the address of the third
    cannot be joined to the base. *)
Definition world_bad_address : world :=
  world_of
    (Ok (SearchResponse 200
           (Ok (JsonObject
                  (Some [item_at "/decision/1"; item_at "/decision/2";
                         item_at "//["; item_at "/decision/4";
                         item_at "/decision/5"])))))
    page_without_tag no_stream.

End Examples.

(* ===================================================================== *)
(** * Properties *)
(* ===================================================================== *)

(** ** Strings *)

Module PyStrFacts.
Import PyStr.

Lemma app_nil_r (s : string) : s +:+ "" = s.
Proof. induction s as [|c s IH]; simpl; [reflexivity | now rewrite IH]. Qed.

Lemma app_assoc (a b c : string) : (a +:+ b) +:+ c = a +:+ b +:+ c.
Proof. induction a as [|x a IH]; simpl; [reflexivity | now rewrite IH]. Qed.

Lemma length_app (a b : string) :
  String.length (a +:+ b) = (String.length a + String.length b)%nat.
Proof. induction a as [|x a IH]; simpl; [reflexivity | now rewrite IH]. Qed.

Lemma all_chars_app p (a b : string) :
  all_chars p (a +:+ b) = all_chars p a && all_chars p b.
Proof.
  induction a as [|x a IH]; simpl; [reflexivity|].
  rewrite IH. now rewrite andb_assoc.
Qed.

Lemma contains_app c (a b : string) :
  contains c (a +:+ b) = contains c a || contains c b.
Proof.
  induction a as [|x a IH]; simpl; [reflexivity|].
  rewrite IH. now rewrite orb_assoc.
Qed.

(** [lstrip] cuts a run of white space off the front. *)
Lemma lstrip_split (s : string) :
  exists l, s = l +:+ lstrip s /\ all_chars isspace l = true.
Proof.
  induction s as [|c s [l [Hs Hl]]]; simpl.
  - exists ""; split; reflexivity.
  - destruct (isspace c) eqn:Hc.
    + exists (String c l); simpl. rewrite Hc, Hl. split; [now f_equal | reflexivity].
    + exists ""; split; reflexivity.
Qed.

(** [rstrip] cuts a run of white space off the back. *)
Lemma rstrip_split (s : string) :
  exists r, s = rstrip s +:+ r /\ all_chars isspace r = true.
Proof.
  induction s as [|c s [r [Hs Hr]]]; simpl.
  - exists ""; split; reflexivity.
  - destruct (rstrip s) as [|c' t] eqn:Ht.
    + destruct (isspace c) eqn:Hc.
      * exists (String c r); simpl in *. rewrite Hc, Hr. split; [now f_equal | reflexivity].
      * exists r; simpl in *. split; [now f_equal | assumption].
    + exists r; simpl in *. split; [now f_equal | assumption].
Qed.

Lemma rstrip_idem (s : string) : rstrip (rstrip s) = rstrip s.
Proof.
  induction s as [|c s IH]; simpl; [reflexivity|].
  destruct (rstrip s) as [|c' t] eqn:Ht.
  - destruct (isspace c) eqn:Hc; simpl; [reflexivity | now rewrite Hc].
  - change (rstrip (String c (String c' t))) with
      (match rstrip (String c' t) with
       | EmptyString => if isspace c then EmptyString else String c EmptyString
       | r => String c r
       end).
    now rewrite IH.
Qed.

(** A text that does not begin with white space keeps its first character
    under [rstrip]. *)
Lemma lstrip_rstrip_fixed (t : string) : lstrip t = t -> lstrip (rstrip t) = rstrip t.
Proof.
  destruct t as [|c t]; simpl; [reflexivity|].
  destruct (isspace c) eqn:Hc.
  - intros H. exfalso.
    destruct (lstrip_split t) as [l [Hl _]].
    rewrite H in Hl.
    apply (f_equal String.length) in Hl.
    rewrite length_app in Hl. simpl in Hl. lia.
  - intros _. destruct (rstrip t); simpl; now rewrite Hc.
Qed.

Lemma lstrip_idem (s : string) : lstrip (lstrip s) = lstrip s.
Proof.
  induction s as [|c s IH]; simpl; [reflexivity|].
  destruct (isspace c) eqn:Hc; [assumption | simpl; now rewrite Hc].
Qed.

(** [strip] is trimming. *)
Lemma strip_trimmed (s : string) : Spec.trimmed s (strip s).
Proof.
  destruct (lstrip_split s) as [l [Hs Hl]].
  destruct (rstrip_split (lstrip s)) as [r [Ht Hr]].
  exists l, r. unfold strip. repeat split; try assumption.
  - rewrite <- Ht. exact Hs.
  - apply lstrip_rstrip_fixed, lstrip_idem.
  - apply rstrip_idem.
Qed.

Lemma partition_Some sep (s a b : string) :
  partition sep s = Some (a, b) <->
  s = a +:+ String sep b /\ contains sep a = false.
Proof.
  revert a b. induction s as [|c s IH]; intros a b; simpl.
  - split; [discriminate|]. intros [H _]. destruct a; discriminate.
  - destruct (Ascii.eqb_spec c sep) as [->|Hne].
    + split.
      * intros [= <- <-]. split; reflexivity.
      * intros [H Ha]. destruct a as [|x a]; simpl in *.
        -- now injection H as ->.
        -- injection H as <- _. rewrite Ascii.eqb_refl in Ha. discriminate.
    + destruct (partition sep s) as [[a' b']|] eqn:Hp.
      * destruct (proj1 (IH a' b') eq_refl) as [Hs Ha'].
        split.
        -- intros [= <- <-]. simpl. split; [now f_equal|].
           rewrite Ha'. apply Ascii.eqb_neq in Hne. now rewrite Hne.
        -- intros [H Ha]. destruct a as [|x a]; simpl in *.
           ++ injection H as -> _. contradiction.
           ++ injection H as <- H. apply orb_false_elim in Ha as [_ Ha].
              assert (Some (a', b') = Some (a, b)) as [= -> ->] by (apply IH; auto).
              reflexivity.
      * split; [discriminate|]. intros [H Ha].
        destruct a as [|x a]; simpl in *.
        -- injection H as -> _. contradiction.
        -- injection H as <- H. apply orb_false_elim in Ha as [_ Ha].
           assert (None = Some (a, b)) by (apply IH; auto). discriminate.
Qed.

Lemma partition_None sep (s : string) :
  partition sep s = None <-> contains sep s = false.
Proof.
  induction s as [|c s IH]; simpl; [tauto|].
  destruct (Ascii.eqb c sep); simpl.
  - split; discriminate.
  - destruct (partition sep s) as [[a b]|].
    + split; [discriminate|]. intros H. apply IH in H. discriminate.
    + tauto.
Qed.

End PyStrFacts.

(** ** Digits and the ISO rendering of a date *)

Module DigitFacts.
Import PyStr PyDate.

Lemma digit_cases (x : Z) :
  0 <= x < 10 ->
  x = 0 \/ x = 1 \/ x = 2 \/ x = 3 \/ x = 4 \/ x = 5 \/ x = 6 \/ x = 7
  \/ x = 8 \/ x = 9.
Proof. lia. Qed.

Ltac each_digit H :=
  apply digit_cases in H;
  repeat (destruct H as [-> | H]); [ .. | subst ].

Lemma code_digit_char (x : Z) : 0 <= x < 10 -> code (digit_char x) = 48 + x.
Proof. intros H. each_digit H; reflexivity. Qed.

Lemma isdigit_digit_char (x : Z) : 0 <= x < 10 -> isdigit (digit_char x) = true.
Proof. intros H. each_digit H; reflexivity. Qed.

Lemma digit_value_digit_char (x : Z) :
  0 <= x < 10 -> digit_value (digit_char x) = x.
Proof. intros H. unfold digit_value. rewrite code_digit_char by assumption. lia. Qed.

Lemma chr_code (c : ascii) : chr (code c) = c.
Proof. unfold chr, code. rewrite Nat2Z.id. apply ascii_nat_embedding. Qed.

Lemma code_bound (c : ascii) : 0 <= code c < 256.
Proof. unfold code. pose proof (nat_ascii_bounded c). lia. Qed.

Lemma code_inj (c c' : ascii) : code c = code c' -> c = c'.
Proof. intros H. rewrite <- (chr_code c), <- (chr_code c'). now rewrite H. Qed.

Lemma in_range_iff lo hi c : in_range lo hi c = true <-> lo <= code c <= hi.
Proof.
  unfold in_range. rewrite andb_true_iff, Z.leb_le, Z.leb_le. tauto.
Qed.



Lemma digit_char_not_space (x : Z) : 0 <= x < 10 -> isspace (digit_char x) = false.
Proof. intros H. each_digit H; reflexivity. Qed.

Lemma mod10_bound (n : Z) : 0 <= n mod 10 < 10.
Proof. apply Z.mod_pos_bound. lia. Qed.


(** From the year 1000 on [%Y] has its four digits. *)
Lemma format_Y_four_digits (y : Z) : 1000 <= y -> format_Y y = pad4 y.
Proof.
  intros H. unfold format_Y.
  destruct (Z.ltb_spec y 10), (Z.ltb_spec y 100), (Z.ltb_spec y 1000);
    try lia; reflexivity.
Qed.

Lemma pad2_value (n : Z) :
  0 <= n < 100 -> 10 * (n / 10 mod 10) + n mod 10 = n.
Proof. intros H. Z.div_mod_to_equations. lia. Qed.

Lemma pad4_value (n : Z) :
  0 <= n < 10000 ->
  1000 * (n / 1000 mod 10) + 100 * (n / 100 mod 10)
  + 10 * (n / 10 mod 10) + n mod 10 = n.
Proof. intros H. Z.div_mod_to_equations. lia. Qed.

(** Reading the [%Y-%m-%d] rendering back gives the date's components. *)
Lemma read_iso_strftime (d : date) :
  1000 <= year d < 10000 -> 0 <= month d < 100 -> 0 <= day d < 100 ->
  Spec.read_iso (strftime d) = Some (year d, month d, day d).
Proof.
  intros Hy Hm Hd. unfold strftime.
  rewrite format_Y_four_digits by lia. unfold pad4, pad2. simpl.
  rewrite !isdigit_digit_char by apply mod10_bound. simpl.
  rewrite !digit_value_digit_char by apply mod10_bound.
  rewrite pad4_value, !pad2_value by lia. reflexivity.
Qed.

Lemma valid_date_bounds (y m d : Z) :
  valid_date y m d = true ->
  1 <= y <= 9999 /\ 1 <= m <= 12 /\ 1 <= d <= days_in_month y m /\ 1 <= d <= 31.
Proof.
  unfold valid_date. rewrite !andb_true_iff, !Z.leb_le.
  intros [[[[[? ?] ?] ?] ?] ?].
  assert (days_in_month y m <= 31).
  { unfold days_in_month.
    assert (m = 1 \/ m = 2 \/ m = 3 \/ m = 4 \/ m = 5 \/ m = 6 \/ m = 7
            \/ m = 8 \/ m = 9 \/ m = 10 \/ m = 11 \/ m = 12) as Hc by lia.
    repeat (destruct Hc as [-> | Hc]); subst; try lia;
      destruct (is_leap y); lia. }
  lia.
Qed.

End DigitFacts.

(** ** The result normalizer: metadata split and decisions *)

Section NormalizerFacts.
Import PyStr.

Lemma split1_comma (a b : string) :
  contains "," a = false ->
  split1 "," (a +:+ String "," b) = [a; b].
Proof.
  intros Ha. unfold split1.
  assert (partition "," (a +:+ String "," b) = Some (a, b)) as ->
    by (apply PyStrFacts.partition_Some; auto).
  reflexivity.
Qed.

Lemma split1_no_comma (s : string) :
  contains "," s = false -> split1 "," s = [s].
Proof.
  intros Hs. unfold split1.
  apply PyStrFacts.partition_None in Hs. now rewrite Hs.
Qed.

Lemma truthy_app_sep (a b : string) c : truthy (a +:+ String c b) = true.
Proof. destruct a; reflexivity. Qed.

(** C7: a non-empty combined-metadata string is split on its first comma
    only; the first segment, trimmed, is the date text, and the second
    segment, if there is one, is the sector, trimmed.  Without a comma,
    and for an empty or absent field, the sector is ["Not found"]. *)
Theorem C7_metadata_split_on_first_comma (field : option string) :
  let filter_meta := default "" field in
  (forall a b,
      filter_meta = a +:+ String "," b -> contains "," a = false ->
      parse_filter_meta filter_meta = (strip a, strip b)
      /\ Spec.trimmed a (strip a) /\ Spec.trimmed b (strip b))
  /\ (truthy filter_meta = true -> contains "," filter_meta = false ->
      parse_filter_meta filter_meta = (strip filter_meta, "Not found")
      /\ Spec.trimmed filter_meta (strip filter_meta))
  /\ (truthy filter_meta = false ->
      parse_filter_meta filter_meta = ("", "Not found")).
Proof.
  intros filter_meta. repeat split.
  - unfold parse_filter_meta. rewrite H, truthy_app_sep, split1_comma by assumption.
    reflexivity.
  - apply PyStrFacts.strip_trimmed.
  - apply PyStrFacts.strip_trimmed.
  - unfold parse_filter_meta. rewrite H, split1_no_comma by assumption.
    reflexivity.
  - apply PyStrFacts.strip_trimmed.
  - intros H. unfold parse_filter_meta. now rewrite H.
Qed.

Lemma C7_metadata_split_witness :
  parse_filter_meta "5 December 2025, Education, Schools"
    = ("5 December 2025", "Education, Schools")
  /\ parse_filter_meta " 5 December 2025 " = ("5 December 2025", "Not found")
  /\ parse_filter_meta "" = ("", "Not found").
Proof.
  split; [|split].
  - exact (proj1 (proj1 (C7_metadata_split_on_first_comma
             (Some "5 December 2025, Education, Schools"))
             "5 December 2025" " Education, Schools" eq_refl eq_refl)).
  - exact (proj1 (proj1 (proj2 (C7_metadata_split_on_first_comma
             (Some " 5 December 2025 "))) eq_refl eq_refl)).
  - exact (proj2 (proj2 (C7_metadata_split_on_first_comma None)) eq_refl).
Defined.

Lemma decisions_loop_filter (l : list decision_item) (acc : list string) :
  decisions_loop l acc
  = acc ++ map Spec.fragment (List.filter Spec.valid_decision l).
Proof.
  revert acc. induction l as [|d l IH]; intros acc; simpl.
  - now rewrite app_nil_r.
  - destruct d as [[st|] [sec|]]; unfold Spec.valid_decision; simpl;
      try (destruct (truthy st)); try (destruct (truthy sec)); simpl;
      rewrite IH; try reflexivity.
    now rewrite <- List.app_assoc.
Qed.

Lemma joined_join (sep : string) (parts : list string) :
  parts <> [] -> Spec.joined sep parts (join sep parts).
Proof.
  induction parts as [|part parts IH]; [congruence|]. intros _.
  destruct parts as [|part' parts]; [apply Spec.joined_one|].
  change (join sep (part :: part' :: parts))
    with (part +:+ sep +:+ join sep (part' :: parts)).
  apply Spec.joined_more; [apply IH|]; congruence.
Qed.

Lemma joined_unique (sep : string) (parts : list string) (s s' : string) :
  Spec.joined sep parts s -> Spec.joined sep parts s' -> s = s'.
Proof.
  intros H. revert s'. induction H as [part | part parts s H IH Hne];
    intros s' H'.
  - inversion H' as [part0 | part0 parts0 s0 H0 Hne0]; subst;
      [reflexivity | congruence].
  - inversion H' as [part0 | part0 parts0 s0 H0 Hne0]; subst;
      [congruence|].
    f_equal. f_equal. now apply IH.
Qed.

(** C8: the decision string is the ["<section>: <status>"] fragments of
    the entries with a non-empty status and a non-empty section, in input
    order with [", "] between each two of them, and no other text is; it
    is ["Not found"] when there is no such entry (an empty list, a list
    without one, or no list). *)
Theorem C8_decision_string (dec_items : list decision_item) :
  let valid := List.filter Spec.valid_decision dec_items in
  (valid <> [] ->
   forall s, Spec.joined ", " (map Spec.fragment valid) s
             <-> s = decision_str dec_items)
  /\ (valid = [] -> decision_str dec_items = "Not found")
  /\ decision_str (default [] None) = "Not found".
Proof.
  intros valid.
  assert (decision_str dec_items
          = match valid with
            | [] => "Not found"
            | _ => join ", " (map Spec.fragment valid)
            end) as Hstr.
  { unfold decision_str. rewrite decisions_loop_filter. simpl.
    fold valid. destruct valid; reflexivity. }
  split; [|split; [|reflexivity]].
  - intros Hvalid s.
    assert (Spec.joined ", " (map Spec.fragment valid)
              (decision_str dec_items)) as Hjoined.
    { rewrite Hstr. destruct valid as [|d valid']; [congruence|].
      apply joined_join. discriminate. }
    split; [intros Hs; exact (joined_unique _ _ _ _ Hs Hjoined)|].
    intros ->. exact Hjoined.
  - intros Hvalid. rewrite Hstr, Hvalid. reflexivity.
Qed.

End NormalizerFacts.

Lemma C8_decision_string_witness :
  (forall s,
      Spec.joined ", " ["FOI 10: Upheld"; "EIR 12: Not upheld"] s
      <-> s = "FOI 10: Upheld, EIR 12: Not upheld")
  /\ decision_str [DecisionItem (Some "Partly upheld") (Some "")] = "Not found".
Proof.
  split.
  - apply (proj1 (C8_decision_string
                    [DecisionItem (Some "Upheld") (Some "FOI 10");
                     DecisionItem (Some "") (Some "FOI 11");
                     DecisionItem None (Some "DPA 7");
                     DecisionItem (Some "Not upheld") (Some "EIR 12");
                     DecisionItem (Some "Upheld") None])).
    discriminate.
  - apply (proj1 (proj2 (C8_decision_string
                           [DecisionItem (Some "Partly upheld") (Some "")]))).
    reflexivity.
Defined.

(** ** The search client *)

Ltac unfold_monad :=
  unfold bind, ret, raise, lift, try_except, print, sleep, emit, tick,
    set_file, get_file in *.

Section SearchClientFacts.
Variable w : world.

(** C3 (as the code has it): when the search request raises a transport
    error, when the response has a 4xx or 5xx status, or when decoding the
    body as JSON fails, [get_data_from_json_api] returns the empty list
    and raises nothing. *)
Theorem C3_search_failure_gives_empty_list (page_num : Z) (st : state) :
  (exists e, post_answer w (clock st) page_num = Raise e
             /\ is_RequestException e = true)
  \/ (exists resp, post_answer w (clock st) page_num = Ok resp
             /\ 400 <= search_status resp < 600)
  \/ (exists resp e, post_answer w (clock st) page_num = Ok resp
             /\ search_json resp = Raise e
             /\ (is_RequestException e = true \/ is_JSONDecodeError e = true)) ->
  exists st', get_data_from_json_api w page_num st = (Ok [], st').
Proof.
  intros [(e & Hp & He) | [(resp & Hp & Hs) | (resp & e & Hp & Hj & He)]];
    unfold get_data_from_json_api, requests_post, raise_for_status;
    unfold_monad; simpl; rewrite Hp; simpl.
  - rewrite He. eauto.
  - assert ((400 <=? search_status resp) && (search_status resp <? 600) = true) as ->
      by (apply andb_true_intro; split; [apply Z.leb_le | apply Z.ltb_lt]; lia).
    simpl. eauto.
  - destruct ((400 <=? search_status resp) && (search_status resp <? 600));
      simpl; [eauto|].
    rewrite Hj. simpl.
    destruct He as [-> | He]; [eauto|].
    rewrite He. destruct (is_RequestException e); eauto.
Qed.

End SearchClientFacts.

Lemma C3_search_failure_witness :
  exists st',
    get_data_from_json_api Examples.world_api_down 7 initial_state = (Ok [], st').
Proof.
  apply C3_search_failure_gives_empty_list.
  left. eexists. split; reflexivity.
Defined.

(** C3 as stated fails for a status that is not 2xx but is no error for
    [raise_for_status]: with status 300 and a body that decodes, the
    notices of the body are returned. *)
Lemma C3_counterexample_status_300 :
  exists resp,
    post_answer Examples.world_status_300 0 1 = Ok resp
    /\ ~ (200 <= search_status resp < 300)
    /\ fst (get_data_from_json_api Examples.world_status_300 1 initial_state)
       = Ok [Examples.a_notice].
Proof.
  eexists. split; [reflexivity|]. split; [simpl; lia|].
  vm_compute. reflexivity.
Qed.

(** ** The persistence writer *)

Section WriterFacts.
Import PyStr.
Variable url_resolve : string -> string -> result string.
Variable w : world.


(** One [f.write]: the data is appended to the file. *)
Lemma f_write_run (path data : string) (st : state) :
  f_write path data st
  = (Ok tt,
     State (clock st)
       (<[path := default "" (files st !! path) +:+ data]> (files st))
       (trace st ++ [Write path data])).
Proof. reflexivity. Qed.

(** [open_w] when the file system lets it. *)
Lemma open_w_run (path : string) (st : state) :
  open_error w (clock st) path = None ->
  open_w w path st
  = (Ok tt,
     State (S (clock st)) (<[path := ""]> (files st)) (trace st ++ [Open path])).
Proof.
  intros H. unfold open_w. unfold_monad. simpl. rewrite H. reflexivity.
Qed.

Lemma open_w_fail (path : string) (st : state) e :
  open_error w (clock st) path = Some e ->
  open_w w path st
  = (Raise e, State (S (clock st)) (files st) (trace st ++ [Open path])).
Proof.
  intros H. unfold open_w. unfold_monad. simpl. rewrite H. reflexivity.
Qed.

(** Lines 188-194 when [open] succeeds: the file holds the six writes. *)
Lemma write_metadata_run path organisation parsed_date sector decision
    abstract pdf_url (st : state) :
  open_error w (clock st) path = None ->
  write_metadata w path organisation parsed_date sector decision abstract
    pdf_url st
  = (Ok tt,
     State (S (clock st))
       (<[path := Spec.metadata_text organisation (date_text parsed_date)
                    sector decision abstract pdf_url]> (files st))
       (trace st ++ Spec.metadata_events path organisation
          (date_text parsed_date) sector decision abstract pdf_url)).
Proof.
  intros H. unfold write_metadata.
  unfold bind at 1. rewrite (open_w_run _ _ H).
  repeat (unfold bind at 1; rewrite f_write_run; cbn [clock files trace];
          rewrite lookup_insert_eq, insert_insert_eq; cbn [default]).
  rewrite f_write_run; cbn [clock files trace].
  rewrite lookup_insert_eq, insert_insert_eq; cbn [default].
  f_equal. f_equal.
  - f_equal. unfold Spec.metadata_text, Spec.metadata_lines. simpl.
    repeat (rewrite PyStrFacts.app_assoc; simpl). reflexivity.
  - rewrite <- !List.app_assoc. reflexivity.
Qed.

Lemma write_metadata_fail path organisation parsed_date sector decision
    abstract pdf_url (st : state) e :
  open_error w (clock st) path = Some e ->
  write_metadata w path organisation parsed_date sector decision abstract
    pdf_url st
  = (Raise e, State (S (clock st)) (files st) (trace st ++ [Open path])).
Proof.
  intros H. unfold write_metadata.
  unfold bind at 1. rewrite (open_w_fail _ _ _ H). reflexivity.
Qed.

(** Lines 204-205: the chunks are appended in order. *)
Lemma write_chunks_run path (chunks : list string) (st : state) old :
  files st !! path = Some old ->
  write_chunks path chunks st
  = (Ok tt,
     State (clock st)
       (<[path := old +:+ String.concat "" chunks]> (files st))
       (trace st ++ map (Write path) chunks)).
Proof.
  revert st old. induction chunks as [|chunk rest IH]; intros st old Hold.
  - simpl. unfold ret. destruct st as [c f t]; simpl in *.
    rewrite PyStrFacts.app_nil_r, insert_id, List.app_nil_r by assumption.
    reflexivity.
  - cbn [write_chunks]. unfold bind at 1. rewrite f_write_run.
    rewrite (IH _ (old +:+ chunk)); cbn [clock files trace].
    + rewrite Hold; cbn [default]. rewrite insert_insert_eq.
      rewrite <- List.app_assoc. simpl.
      destruct rest; simpl;
        rewrite ?PyStrFacts.app_nil_r, ?PyStrFacts.app_assoc; reflexivity.
    + rewrite Hold. apply lookup_insert_eq.
Qed.




End WriterFacts.




(** ** The detail fetcher *)

Section DetailFacts.
Import PyStr.
Variable url_resolve : string -> string -> result string.
Variable w : world.

Lemma lift_run {A} (r : result A) (st : state) : lift r st = (r, st).
Proof. destruct r; reflexivity. Qed.

Lemma requests_get_run (target : string) (st : state) :
  requests_get w target st
  = (get_answer w (clock st) target,
     State (S (clock st)) (files st) (trace st ++ [RequestsGet target false])).
Proof. unfold requests_get. unfold_monad. simpl. now destruct (get_answer _ _ _). Qed.

Lemma requests_get_stream_run (target : string) (st : state) :
  requests_get_stream w target st
  = (stream_answer w (clock st) target,
     State (S (clock st)) (files st) (trace st ++ [RequestsGet target true])).
Proof.
  unfold requests_get_stream. unfold_monad. simpl.
  now destruct (stream_answer _ _ _).
Qed.

Lemma os_makedirs_run (path : string) (st : state) :
  os_makedirs w path st
  = (match makedirs_error w (clock st) path with
     | Some e => Raise e
     | None => Ok tt
     end,
     State (S (clock st)) (files st) (trace st ++ [Makedirs path])).
Proof. unfold os_makedirs. unfold_monad. simpl. now destruct (makedirs_error _ _ _). Qed.

Lemma raise_for_status_ok (status_code : Z) (st : state) :
  ~ (400 <= status_code < 600) -> raise_for_status status_code st = (Ok tt, st).
Proof.
  intros H. unfold raise_for_status.
  destruct (Z.leb_spec 400 status_code), (Z.ltb_spec status_code 600);
    simpl; try reflexivity. lia.
Qed.

Lemma raise_for_status_error (status_code : Z) (st : state) :
  400 <= status_code < 600 ->
  raise_for_status status_code st
  = (Raise (Exn HTTPError "Client Error or Server Error"), st).
Proof.
  intros H. unfold raise_for_status.
  destruct (Z.leb_spec 400 status_code), (Z.ltb_spec status_code 600);
    simpl; try reflexivity; lia.
Qed.

Lemma raise_for_status_cases (status_code : Z) (st : state) :
  raise_for_status status_code st = (Ok tt, st)
  \/ exists e, raise_for_status status_code st = (Raise e, st).
Proof.
  unfold raise_for_status.
  destruct ((400 <=? status_code) && (status_code <? 600)); eauto.
Qed.

Lemma filter_download_metadata_events p o d s dc a u :
  List.filter Spec.is_download (Spec.metadata_events p o d s dc a u) = [].
Proof. reflexivity. Qed.

(** Without the tag or without its attribute the link is the sentinel. *)
Lemma pdf_link_missing (tag : option (gmap string string)) :
  (tag = None \/ exists attrs, tag = Some attrs /\ attrs !! "x-href" = None) ->
  pdf_link url_resolve tag = Ok ("Not found", "document.pdf").
Proof.
  intros [-> | (attrs & -> & H)]; unfold pdf_link; [reflexivity|].
  now rewrite H.
Qed.

(** C5: when the detail page has no [further-reading] tag, or the tag has
    no [x-href] attribute, the PDF URL is ["Not found"] and the file name
    ["document.pdf"]; processing the case then makes no download, and the
    metadata it writes carries the sentinel. *)
Theorem C5_missing_link_gives_sentinel (target : string) (case_counter : Z)
    (nd : notice_data) (st : state) (resp : page_response) :
  get_answer w (clock st) target = Ok resp ->
  (further_reading resp = None
   \/ exists attrs, further_reading resp = Some attrs
                    /\ attrs !! "x-href" = None) ->
  pdf_link url_resolve (further_reading resp)
  = Ok ("Not found", "document.pdf")
  /\ forall r st',
      scrape_detail_page url_resolve w target case_counter nd st = (r, st') ->
      List.filter Spec.is_download (trace st')
      = List.filter Spec.is_download (trace st)
      /\ (r = Ok tt ->
          files st' !! PosixPath.join (case_dir_of case_counter) "metadata.txt"
          = Some (Spec.metadata_text (organisation nd) (date_text (date nd))
                    (sector nd) (decision nd) (abstract nd) "Not found")).
Proof.
  intros Hget Htag.
  pose proof (pdf_link_missing _ Htag) as Hlink.
  split; [exact Hlink|]. intros r st'.
  unfold scrape_detail_page.
  unfold bind at 1. rewrite requests_get_run, Hget.
  unfold bind at 1.
  destruct (raise_for_status_cases (page_status resp)
              (State (S (clock st)) (files st)
                 (trace st ++ [RequestsGet target false]))) as [-> | [e ->]].
  2:{ intros [= <- <-]. simpl. rewrite List.filter_app. simpl.
      rewrite List.app_nil_r. split; [reflexivity | discriminate]. }
  unfold bind at 1. rewrite Hlink, lift_run.
  unfold bind at 1. rewrite os_makedirs_run. cbn [clock files trace].
  destruct (makedirs_error w (S (clock st)) (case_dir_of case_counter)).
  { intros [= <- <-]. simpl. rewrite !List.filter_app. simpl.
    rewrite !List.app_nil_r. split; [reflexivity | discriminate]. }
  unfold bind at 1.
  destruct (open_error w (S (S (clock st)))
              (PosixPath.join (case_dir_of case_counter) "metadata.txt")) eqn:Hopen.
  { erewrite write_metadata_fail by exact Hopen.
    intros [= <- <-]. simpl. rewrite !List.filter_app. simpl.
    rewrite !List.app_nil_r. split; [reflexivity | discriminate]. }
  erewrite write_metadata_run by exact Hopen.
  intros [= <- <-]. simpl. rewrite !List.filter_app. simpl.
  rewrite !List.app_nil_r. split; [reflexivity|].
  intros _. apply lookup_insert_eq.
Qed.

(** Lines 157-196 when the page is fetched, the directory is made and
    [metadata.txt] is opened: what remains is the download. *)
Lemma scrape_detail_page_to_download (target : string) (case_counter : Z)
    (nd : notice_data) (st : state) (resp : page_response)
    (pdf_url pdf_filename : string) :
  let case_dir := case_dir_of case_counter in
  let metadata_path := PosixPath.join case_dir "metadata.txt" in
  get_answer w (clock st) target = Ok resp ->
  ~ (400 <= page_status resp < 600) ->
  pdf_link url_resolve (further_reading resp) = Ok (pdf_url, pdf_filename) ->
  makedirs_error w (S (clock st)) case_dir = None ->
  open_error w (S (S (clock st))) metadata_path = None ->
  scrape_detail_page url_resolve w target case_counter nd st
  = download_pdf w case_dir pdf_url pdf_filename
      (State (S (S (S (clock st))))
         (<[metadata_path :=
              Spec.metadata_text (organisation nd) (date_text (date nd))
                (sector nd) (decision nd) (abstract nd) pdf_url]> (files st))
         (trace st
          ++ [RequestsGet target false; Makedirs case_dir]
          ++ Spec.metadata_events metadata_path (organisation nd)
               (date_text (date nd)) (sector nd) (decision nd) (abstract nd)
               pdf_url
          ++ [Print (MsgMetadataSaved metadata_path)])).
Proof.
  intros case_dir metadata_path Hget Hstatus Hlink Hmk Hopen.
  unfold scrape_detail_page.
  unfold bind at 1. rewrite requests_get_run, Hget.
  unfold bind at 1. rewrite raise_for_status_ok by assumption.
  unfold bind at 1. rewrite Hlink, lift_run.
  unfold bind at 1. rewrite os_makedirs_run. cbn [clock files trace].
  fold case_dir. rewrite Hmk.
  unfold bind at 1. fold metadata_path.
  erewrite write_metadata_run by exact Hopen.
  unfold bind at 1. unfold print, emit. cbn [clock files trace].
  rewrite <- !List.app_assoc. reflexivity.
Qed.

(** Lines 198-208 for a URL other than the sentinel, case by case. *)
Lemma download_pdf_run (case_dir pdf_url pdf_filename : string) (st : state) :
  String.eqb pdf_url "Not found" = false ->
  let pdf_path := PosixPath.join case_dir pdf_filename in
  let failed (e : exn) (c : nat) (f : gmap string string) (t : list event)
    : result unit * state :=
    if is_RequestException e
    then (Ok tt, State c f (t ++ [Print (MsgPdfFailed pdf_url e)]))
    else (Raise e, State c f t) in
  download_pdf w case_dir pdf_url pdf_filename st
  = match stream_answer w (clock st) pdf_url with
    | Raise e =>
        failed e (S (clock st)) (files st)
          (trace st ++ [RequestsGet pdf_url true])
    | Ok sr =>
        if (400 <=? stream_status sr) && (stream_status sr <? 600) then
          failed (Exn HTTPError "Client Error or Server Error")
            (S (clock st)) (files st)
            (trace st ++ [RequestsGet pdf_url true])
        else
          match open_error w (S (clock st)) pdf_path with
          | Some e =>
              failed e (S (S (clock st))) (files st)
                (trace st ++ [RequestsGet pdf_url true; Open pdf_path])
          | None =>
              let f := <[pdf_path := String.concat "" (stream_chunks sr)]>
                         (files st) in
              let t := trace st ++ [RequestsGet pdf_url true; Open pdf_path]
                       ++ map (Write pdf_path) (stream_chunks sr) in
              match stream_error sr with
              | Some e => failed e (S (S (clock st))) f t
              | None =>
                  (Ok tt,
                   State (S (S (clock st))) f
                     (t ++ [Print (MsgPdfSaved pdf_path)]))
              end
          end
    end.
Proof.
  intros Hurl pdf_path failed. unfold download_pdf. rewrite Hurl.
  cbn [negb]. fold pdf_path. unfold try_except.
  unfold bind at 1. rewrite requests_get_stream_run.
  destruct (stream_answer w (clock st) pdf_url) as [sr|e].
  2:{ unfold failed. destruct (is_RequestException e); reflexivity. }
  unfold bind at 1. unfold raise_for_status.
  destruct ((400 <=? stream_status sr) && (stream_status sr <? 600)).
  { reflexivity. }
  unfold ret at 1. unfold bind at 1.
  destruct (open_error w (S (clock st)) pdf_path) as [e|] eqn:Hopen.
  { erewrite open_w_fail by exact Hopen. cbn [clock files trace].
    rewrite <- List.app_assoc. unfold failed.
    destruct (is_RequestException e); reflexivity. }
  erewrite open_w_run by exact Hopen. cbn [clock files trace].
  unfold bind at 1.
  erewrite write_chunks_run by apply lookup_insert_eq.
  cbn [clock files trace]. rewrite insert_insert_eq.
  rewrite <- !List.app_assoc.
  change ("" +:+ String.concat "" (stream_chunks sr))
    with (String.concat "" (stream_chunks sr)).
  unfold bind at 1.
  destruct (stream_error sr) as [e|].
  - unfold raise, failed. destruct (is_RequestException e); reflexivity.
  - unfold ret, print, emit. cbn [clock files trace].
    rewrite <- !List.app_assoc. reflexivity.
Qed.

(** C10: an [x-href] that is present but empty does not give the
    sentinel.  The PDF URL is the base origin, the file name stays
    ["document.pdf"], the base origin is downloaded, and when the
    download succeeds its body is saved as [document.pdf] in the case
    directory. *)
Theorem C10_empty_href_downloads_base_origin (target : string)
    (case_counter : Z) (nd : notice_data) (st : state)
    (resp : page_response) (attrs : gmap string string) :
  let case_dir := case_dir_of case_counter in
  let pdf_path := PosixPath.join case_dir "document.pdf" in
  get_answer w (clock st) target = Ok resp ->
  ~ (400 <= page_status resp < 600) ->
  further_reading resp = Some attrs ->
  attrs !! "x-href" = Some "" ->
  makedirs_error w (S (clock st)) case_dir = None ->
  open_error w (S (S (clock st))) (PosixPath.join case_dir "metadata.txt")
    = None ->
  pdf_link url_resolve (further_reading resp) = Ok (BASE_URL, "document.pdf")
  /\ forall r st',
      scrape_detail_page url_resolve w target case_counter nd st = (r, st') ->
      In (RequestsGet BASE_URL true) (trace st')
      /\ forall sr,
          stream_answer w (S (S (S (clock st)))) BASE_URL = Ok sr ->
          ~ (400 <= stream_status sr < 600) ->
          open_error w (S (S (S (S (clock st))))) pdf_path = None ->
          stream_error sr = None ->
          r = Ok tt
          /\ files st' !! pdf_path
             = Some (String.concat "" (stream_chunks sr)).
Proof.
  intros case_dir pdf_path Hget Hstatus Htag Href Hmk Hopen.
  assert (pdf_link url_resolve (further_reading resp)
          = Ok (BASE_URL, "document.pdf")) as Hlink.
  { rewrite Htag. unfold pdf_link. rewrite Href. reflexivity. }
  split; [exact Hlink|]. intros r st'.
  rewrite (scrape_detail_page_to_download _ _ _ _ _ _ _
             Hget Hstatus Hlink Hmk Hopen).
  rewrite download_pdf_run by reflexivity.
  cbn [clock files trace]. fold case_dir. fold pdf_path.
  intros Hrun. split.
  - destruct (stream_answer w (S (S (S (clock st)))) BASE_URL) as [sr|e].
    2:{ destruct (is_RequestException e); injection Hrun as <- <-;
        cbn [trace]; rewrite ?in_app_iff; simpl; tauto. }
    destruct ((400 <=? stream_status sr) && (stream_status sr <? 600)).
    { injection Hrun as <- <-. cbn [trace]. rewrite ?in_app_iff. simpl. tauto. }
    destruct (open_error w (S (S (S (S (clock st))))) pdf_path) as [e|].
    { destruct (is_RequestException e); injection Hrun as <- <-;
        cbn [trace]; rewrite ?in_app_iff; simpl; tauto. }
    destruct (stream_error sr) as [e|].
    { destruct (is_RequestException e); injection Hrun as <- <-;
        cbn [trace]; rewrite ?in_app_iff; simpl; tauto. }
    injection Hrun as <- <-. cbn [trace]. rewrite ?in_app_iff. simpl. tauto.
  - intros sr Hsr Hst Hop Herr.
    rewrite Hsr, Hop, Herr in Hrun.
    assert ((400 <=? stream_status sr) && (stream_status sr <? 600) = false) as Hb.
    { destruct (Z.leb_spec 400 (stream_status sr)),
        (Z.ltb_spec (stream_status sr) 600); simpl; try reflexivity. lia. }
    rewrite Hb in Hrun. injection Hrun as <- <-.
    split; [reflexivity|]. cbn [files]. apply lookup_insert_eq.
Qed.

Lemma basename_no_slash (p : string) :
  contains "/" (PosixPath.basename p) = false.
Proof.
  induction p as [|c p IH]; [reflexivity|].
  cbn [PosixPath.basename].
  destruct (contains "/" (String c p)) eqn:H; assumption.
Qed.

Lemma pdf_link_filename_no_slash tag (pdf_url pdf_filename : string) :
  pdf_link url_resolve tag = Ok (pdf_url, pdf_filename) ->
  contains "/" pdf_filename = false.
Proof.
  unfold pdf_link. destruct tag as [attrs|]; [|intros [= <- <-]; reflexivity].
  destruct (attrs !! "x-href") as [rel|]; [|intros [= <- <-]; reflexivity].
  destruct (urljoin url_resolve BASE_URL rel); [|discriminate].
  destruct (truthy rel); intros [= <- <-];
    [apply basename_no_slash | reflexivity].
Qed.

Lemma startswith_contains c (s : string) :
  contains c s = false -> startswith c s = false.
Proof. destruct s; simpl; [reflexivity|]. now intros [? ?]%orb_false_elim. Qed.

(** Two names without a slash are joined to the same path only when they
    are the same name. *)
Lemma join_inj (a b b' : string) :
  contains "/" b = false -> contains "/" b' = false ->
  PosixPath.join a b = PosixPath.join a b' -> b = b'.
Proof.
  intros Hb Hb'. unfold PosixPath.join.
  rewrite (startswith_contains _ _ Hb), (startswith_contains _ _ Hb').
  destruct (negb (truthy a) || endswith "/" a); intros H.
  - now apply String.app_inj in H.
  - apply String.app_inj in H. now injection H.
Qed.


End DetailFacts.

Lemma C5_missing_link_witness :
  pdf_link Examples.resolve None = Ok ("Not found", "document.pdf")
  /\ forall r st',
      scrape_detail_page Examples.resolve Examples.world_no_tag
        "https://ico.org.uk/decision/1" 1 Examples.a_notice initial_state
      = (r, st') ->
      List.filter Spec.is_download (trace st') = []
      /\ (r = Ok tt ->
          files st' !! "ico-decision-notice/data/case-1/metadata.txt"
          = Some (Spec.metadata_text "Some Council" "2025-12-05"
                    "Local government" "FOI 10: Upheld" "A complaint."
                    "Not found")).
Proof.
  apply (C5_missing_link_gives_sentinel Examples.resolve Examples.world_no_tag
           "https://ico.org.uk/decision/1" 1 Examples.a_notice initial_state
           (PageResponse 200 None)).
  - reflexivity.
  - left. reflexivity.
Defined.

Lemma C10_empty_href_witness :
  pdf_link Examples.resolve (Some {[ "x-href" := "" ]})
  = Ok ("https://ico.org.uk", "document.pdf")
  /\ forall r st',
      scrape_detail_page Examples.resolve (Examples.world_download "")
        "https://ico.org.uk/decision/1" 1 Examples.a_notice initial_state
      = (r, st') ->
      In (RequestsGet "https://ico.org.uk" true) (trace st')
      /\ forall sr,
          Ok (StreamResponse 200 ["%PDF-1.7"; "%%EOF"] None) = Ok sr ->
          ~ (400 <= stream_status sr < 600) ->
          @None exn = None ->
          stream_error sr = None ->
          r = Ok tt
          /\ files st' !! "ico-decision-notice/data/case-1/document.pdf"
             = Some (String.concat "" (stream_chunks sr)).
Proof.
  apply (C10_empty_href_downloads_base_origin Examples.resolve
           (Examples.world_download "") "https://ico.org.uk/decision/1" 1
           Examples.a_notice initial_state
           (PageResponse 200 (Some {[ "x-href" := "" ]}))
           {[ "x-href" := "" ]}).
  - reflexivity.
  - simpl. lia.
  - reflexivity.
  - reflexivity.
  - reflexivity.
  - reflexivity.
Defined.


(** C9 at a failing input: the detail page links a document whose own
    name is [metadata.txt], and the stream breaks after the first chunk.
    The failure is caught, as C9 says, but the download was written over
    the metadata of the case: the six lines were written and are gone, and
    [metadata.txt] holds what was downloaded. *)
Lemma C9_download_overwrites_metadata :
  exists st',
    scrape_detail_page Examples.resolve
      (Examples.world_broken_download "/docs/metadata.txt")
      "https://ico.org.uk/decision/1" 1 Examples.a_notice initial_state
    = (Ok tt, st')
    /\ pdf_link Examples.resolve (Some {[ "x-href" := "/docs/metadata.txt" ]})
       = Ok ("https://ico.org.uk/docs/metadata.txt", "metadata.txt")
    /\ In (Write "ico-decision-notice/data/case-1/metadata.txt"
             ("PDF URL: https://ico.org.uk/docs/metadata.txt" +:+ LF))
          (trace st')
    /\ files st' !! "ico-decision-notice/data/case-1/metadata.txt"
       = Some "%PDF-1.7".
Proof.
  eexists. split; [vm_compute; reflexivity|].
  split; [vm_compute; reflexivity|].
  split; [simpl; tauto | vm_compute; reflexivity].
Qed.

(** ** The orchestrator: case numbering *)

Section NumberingFacts.
Variable url_resolve : string -> string -> result string.
Variable w : world.

Lemma quiet_skip (q : list event) cur tl :
  forallb Spec.is_quiet q = true ->
  Spec.completed_case_dirs cur (q ++ tl) = Spec.completed_case_dirs cur tl.
Proof.
  induction q as [|e q IH]; simpl; [reflexivity|].
  intros [He Hq]%andb_prop. destruct e; try discriminate; auto.
Qed.


Lemma case_dirs_from_app c (n m : nat) :
  Spec.case_dirs_from c (n + m)
  = Spec.case_dirs_from c n ++ Spec.case_dirs_from (c + Z.of_nat n) m.
Proof.
  revert c. induction n as [|n IH]; intros c; simpl.
  - now rewrite Z.add_0_r.
  - rewrite IH. do 3 f_equal. lia.
Qed.

Lemma completes_app d1 d2 c (n m : nat) :
  Spec.completes d1 c n -> Spec.completes d2 (c + Z.of_nat n) m ->
  Spec.completes (d1 ++ d2) c (n + m).
Proof.
  intros H1 H2 cur.
  destruct (H1 cur) as [cur1 E1]. destruct (H2 cur1) as [cur2 E2].
  exists cur2. intros tl.
  rewrite <- List.app_assoc, E1, E2, case_dirs_from_app.
  now rewrite List.app_assoc.
Qed.

(** *** The search client leaves only its own prints *)

Lemma int_raises s e : PyDate.int s = Raise e -> is_ValueError e = true.
Proof.
  unfold PyDate.int.
  destruct (PyStr.truthy _ && PyStr.all_chars _ _); [discriminate|].
  now intros [= <-].
Qed.

Lemma index_raises x l e : PyDate.index x l = Raise e -> is_ValueError e = true.
Proof.
  induction l as [|y l IH]; simpl; [now intros [= <-]|].
  destruct (String.eqb y x); [discriminate|].
  destruct (PyDate.index x l); [discriminate|].
  intros [= <-]. now apply IH.
Qed.

Lemma make_date_raises y m d e :
  PyDate.make_date y m d = Raise e -> is_ValueError e = true.
Proof.
  unfold PyDate.make_date. destruct (PyDate.valid_date y m d); [discriminate|].
  now intros [= <-].
Qed.

(** [strptime] raises nothing but [ValueError]. *)
Lemma strptime_raises s e : PyDate.strptime s = Raise e -> is_ValueError e = true.
Proof.
  unfold PyDate.strptime.
  destruct (PyDate.format_regex_match s) as [[[[d b] y] rest]|];
    [|now intros [= <-]].
  destruct (PyStr.truthy rest); [now intros [= <-]|].
  destruct (PyDate.int y) eqn:Hy.
  - destruct (PyDate.index _ _) eqn:Hb.
    + destruct (PyDate.int d) eqn:Hd.
      * apply make_date_raises.
      * intros [= <-]. exact (int_raises _ _ Hd).
    + intros [= <-]. exact (index_raises _ _ _ Hb).
  - repeat match goal with
           | |- context [match ?x with _ => _ end] => destruct x
           end;
      intros [= <-]; exact (int_raises _ _ Hy).
Qed.

(** Lines 124-129 end in one of three ways, none of them an exception. *)
Lemma parse_date_cases (date_str_raw : string) (st : state) :
  (exists d, PyStr.truthy date_str_raw = true
             /\ PyDate.strptime date_str_raw = Ok d
             /\ parse_date date_str_raw st = (Ok (Some d), st))
  \/ (exists e, PyStr.truthy date_str_raw = true
             /\ PyDate.strptime date_str_raw = Raise e
             /\ parse_date date_str_raw st
                = (Ok None,
                   State (clock st) (files st)
                     (trace st ++ [Print (MsgCouldNotParseDate date_str_raw)])))
  \/ (PyStr.truthy date_str_raw = false
      /\ parse_date date_str_raw st = (Ok None, st)).
Proof.
  unfold parse_date. destruct (PyStr.truthy date_str_raw); [|now right; right].
  unfold try_except, bind. rewrite lift_run.
  destruct (PyDate.strptime date_str_raw) as [d|e] eqn:Hs.
  - left. exists d. auto.
  - right. left. exists e. rewrite (strptime_raises _ _ Hs). auto.
Qed.

Lemma forallb_snoc {A} (f : A -> bool) l x :
  forallb f l = true -> f x = true -> forallb f (l ++ [x]) = true.
Proof. intros Hl Hx. rewrite forallb_app, Hl. simpl. now rewrite Hx. Qed.

(** Lines 106-147: one notice per result, in order; the loop raises
    nothing, touches no file and prints only date warnings. *)
Lemma items_loop_run (items : list item) (acc : list notice_data) (st : state) :
  exists ns q,
    items_loop items acc st
    = (Ok (acc ++ ns), State (clock st) (files st) (trace st ++ q))
    /\ forallb Spec.is_api_print q = true
    /\ Forall2 normalizes items ns.
Proof.
  revert acc st. induction items as [|it items IH]; intros acc st.
  - exists [], []. simpl. unfold ret. rewrite !List.app_nil_r.
    destruct st; auto.
  - cbn [items_loop].
    destruct (parse_filter_meta (default "" (filterItemMetaData it)))
      as [date_str_raw sec] eqn:Hmeta.
    unfold bind at 1.
    destruct (parse_date_cases date_str_raw st)
      as [(d & Ht & Hs & ->) | [(e & Ht & Hs & ->) | (Ht & ->)]];
      match goal with
      | |- context [items_loop items ?a ?s] =>
          destruct (IH a s) as (ns & q & -> & Hq & Hns)
      end; cbn [clock files trace].
    + eexists (_ :: ns), q. rewrite <- List.app_assoc. split; [reflexivity|].
      split; [assumption|]. constructor; [|assumption].
      unfold normalizes. rewrite Hmeta. cbn [fst snd].
      rewrite Ht, Hs. repeat split.
    + eexists (_ :: ns), (_ :: q). rewrite <- !List.app_assoc.
      split; [reflexivity|]. split; [exact Hq|].
      constructor; [|assumption].
      unfold normalizes. rewrite Hmeta. cbn [fst snd].
      rewrite Ht, Hs. repeat split.
    + eexists (_ :: ns), q. rewrite <- List.app_assoc. split; [reflexivity|].
      split; [assumption|]. constructor; [|assumption].
      unfold normalizes. rewrite Hmeta. cbn [fst snd].
      rewrite Ht. repeat split.
Qed.

Lemma requests_post_run (page_num : Z) (st : state) :
  requests_post w page_num st
  = (post_answer w (clock st) page_num,
     State (S (clock st)) (files st)
       (trace st ++ [RequestsPost SEARCH_API_URL page_num])).
Proof.
  unfold requests_post. unfold_monad. simpl. now destruct (post_answer _ _ _).
Qed.

(** The search client makes one request, prints, and changes no file. *)
Lemma get_data_run (page_num : Z) (st : state) :
  exists r q,
    get_data_from_json_api w page_num st
    = (r, State (S (clock st)) (files st)
            (trace st ++ RequestsPost SEARCH_API_URL page_num :: q))
    /\ forallb Spec.is_api_print q = true.
Proof.
  unfold get_data_from_json_api, try_except.
  unfold bind at 1. rewrite requests_post_run.
  destruct (post_answer w (clock st) page_num) as [resp|e].
  2:{ destruct (is_RequestException e); [|destruct (is_JSONDecodeError e)];
      unfold_monad; cbn [clock files trace]; rewrite <- ?List.app_assoc;
      eexists _, _; (split; [reflexivity|reflexivity]). }
  unfold bind at 1. unfold raise_for_status.
  destruct ((400 <=? search_status resp) && (search_status resp <? 600)).
  { unfold_monad. cbn. rewrite <- ?List.app_assoc.
    eexists _, _; (split; [reflexivity|reflexivity]). }
  unfold ret at 1. unfold bind at 1. rewrite lift_run.
  destruct (search_json resp) as [json|e].
  2:{ destruct (is_RequestException e); [|destruct (is_JSONDecodeError e)];
      unfold_monad; cbn [clock files trace]; rewrite <- ?List.app_assoc;
      eexists _, _; (split; [reflexivity|reflexivity]). }
  unfold bind at 1. unfold print, emit. cbn [clock files trace].
  destruct json as [results|].
  - match goal with
    | |- context [items_loop ?i ?a ?s] =>
        destruct (items_loop_run i a s) as (ns & q & -> & Hq & _)
    end.
    cbn [clock files trace]. rewrite <- !List.app_assoc.
    eexists _, _. split; [reflexivity|]. simpl. exact Hq.
  - unfold raise. cbn [is_RequestException is_JSONDecodeError exn_class_of].
    rewrite <- !List.app_assoc.
    eexists _, _. split; [reflexivity|reflexivity].
Qed.

(** *** One record *)

Lemma calm_writes path (chunks : list string) : Spec.calm (map (Write path) chunks).
Proof. split; induction chunks; simpl; auto. Qed.

Lemma calm_app q1 q2 : Spec.calm q1 -> Spec.calm q2 -> Spec.calm (q1 ++ q2).
Proof.
  intros [A1 B1] [A2 B2]. split; rewrite forallb_app;
    [rewrite A1, A2 | rewrite B1, B2]; reflexivity.
Qed.

Lemma calm_cons e q :
  Spec.is_quiet e = true -> Spec.is_record_event e = true -> Spec.calm q ->
  Spec.calm (e :: q).
Proof. intros He He' [A B]. split; simpl; [rewrite He | rewrite He']; auto. Qed.

Lemma calm_nil : Spec.calm [].
Proof. split; reflexivity. Qed.

(** Lines 198-208 create no directory and do not pause. *)
Lemma download_pdf_shape (case_dir pdf_url pdf_filename : string) (st : state) :
  exists r clk fs q,
    download_pdf w case_dir pdf_url pdf_filename st
    = (r, State clk fs (trace st ++ q)) /\ Spec.calm q.
Proof.
  destruct (String.eqb pdf_url "Not found") eqn:Hurl.
  { unfold download_pdf. rewrite Hurl. exists (Ok tt), (clock st), (files st), [].
    unfold ret. cbn. rewrite List.app_nil_r. destruct st; split;
      [reflexivity | apply calm_nil]. }
  rewrite (download_pdf_run w _ _ _ _ Hurl).
  destruct (stream_answer w (clock st) pdf_url) as [sr|e].
  2:{ destruct (is_RequestException e); cbn [is_RequestException];
        rewrite <- ?List.app_assoc; eexists _, _, _, _;
        (split; [reflexivity|]); repeat apply calm_cons; try reflexivity;
        apply calm_nil. }
  destruct ((400 <=? stream_status sr) && (stream_status sr <? 600)).
  { cbn [is_RequestException exn_class_of]. rewrite <- ?List.app_assoc.
    eexists _, _, _, _. split; [reflexivity|].
    repeat apply calm_cons; try reflexivity; apply calm_nil. }
  destruct (open_error w (S (clock st)) _) as [e|].
  { destruct (is_RequestException e); rewrite <- ?List.app_assoc;
      eexists _, _, _, _; (split; [reflexivity|]);
      repeat apply calm_cons; try reflexivity; apply calm_nil. }
  cbv zeta.
  destruct (stream_error sr) as [e|];
    [destruct (is_RequestException e)|]; rewrite <- ?List.app_assoc;
    eexists _, _, _, _; (split; [reflexivity|]);
    repeat first [ apply calm_app | apply calm_writes
                 | apply calm_cons; [reflexivity | reflexivity |]
                 | apply calm_nil ].
Qed.

Lemma calm_metadata_events p o d s dc a u :
  Spec.calm (Spec.metadata_events p o d s dc a u).
Proof. split; reflexivity. Qed.

(** [scrape_detail_page] either fails on the page itself, having done
    nothing but the request, or goes on to create its case directory and
    creates no other. *)
Lemma scrape_detail_page_shape (target : string) (c : Z) (nd : notice_data)
    (st : state) :
  exists r clk fs q,
    scrape_detail_page url_resolve w target c nd st
    = (r, State clk fs (trace st ++ RequestsGet target false :: q))
    /\ (((exists e, r = Raise e) /\ q = [] /\ fs = files st)
        \/ (exists q', q = Makedirs (case_dir_of c) :: q' /\ Spec.calm q')).
Proof.
  unfold scrape_detail_page.
  unfold bind at 1. rewrite requests_get_run.
  destruct (get_answer w (clock st) target) as [resp|e].
  2:{ eexists _, _, _, []. split; [reflexivity|]. left. eauto. }
  unfold bind at 1.
  destruct (raise_for_status_cases (page_status resp)
              (State (S (clock st)) (files st)
                 (trace st ++ [RequestsGet target false]))) as [-> | [e ->]].
  2:{ eexists _, _, _, []. split; [reflexivity|]. left. eauto. }
  unfold bind at 1. rewrite lift_run.
  destruct (pdf_link url_resolve (further_reading resp))
    as [[pdf_url pdf_filename]|e].
  2:{ eexists _, _, _, []. split; [reflexivity|]. left. eauto. }
  unfold bind at 1. rewrite os_makedirs_run. cbn [clock files trace].
  destruct (makedirs_error w (S (clock st)) (case_dir_of c)).
  { rewrite <- List.app_assoc. cbn [app].
    eexists _, _, _, _. split; [reflexivity|].
    right. eexists. split; [reflexivity | apply calm_nil]. }
  unfold bind at 1.
  destruct (open_error w (S (S (clock st)))
              (PosixPath.join (case_dir_of c) "metadata.txt")) eqn:Hopen.
  { erewrite write_metadata_fail by exact Hopen. cbn [clock files trace].
    rewrite <- !List.app_assoc. cbn [app].
    eexists _, _, _, _. split; [reflexivity|].
    right. eexists. split; [reflexivity|].
    apply calm_cons; [reflexivity | reflexivity | apply calm_nil]. }
  erewrite write_metadata_run by exact Hopen.
  unfold bind at 1. unfold print, emit. cbn [clock files trace].
  match goal with
  | |- context [download_pdf w ?d ?u ?f ?s] =>
      destruct (download_pdf_shape d u f s) as (r & clk & fs & q & -> & Hq)
  end.
  cbn [trace]. rewrite <- !List.app_assoc. cbn [app].
  eexists _, _, _, _. split; [reflexivity|].
  right. eexists. split; [reflexivity|].
  apply calm_app; [apply calm_metadata_events|].
  apply calm_cons; [reflexivity | reflexivity | exact Hq].
Qed.

Lemma calm_record (q : list event) : Spec.calm q -> forallb Spec.is_record_event q = true.
Proof. now intros []. Qed.

Lemma calm_quiet (q : list event) : Spec.calm q -> forallb Spec.is_quiet q = true.
Proof. now intros []. Qed.

(** A record that is processed to the end completes one case, in the
    directory of the counter. *)
Lemma completes_success (u : string) (c : Z) (q' : list event) :
  Spec.calm q' ->
  Spec.completes
    (Print (MsgScrapingDetail u) :: RequestsGet u false
     :: Makedirs (case_dir_of c) :: q' ++ [Sleep 1]) c 1.
Proof.
  intros Hq cur. exists None. intros tl. cbn.
  rewrite <- List.app_assoc, quiet_skip by now apply calm_quiet.
  reflexivity.
Qed.

(** A record that fails completes none. *)
Lemma completes_failure (u : string) (c : Z) (q : list event) e :
  q = [] \/ (exists q', q = Makedirs (case_dir_of c) :: q' /\ Spec.calm q') ->
  Spec.completes
    (Print (MsgScrapingDetail u) :: RequestsGet u false
     :: q ++ [Print (MsgErrorDetail u e)]) c 0.
Proof.
  intros [-> | (q' & -> & Hq)] cur.
  - exists cur. intros tl. reflexivity.
  - exists (Some (case_dir_of c)). intros tl. cbn.
    rewrite <- List.app_assoc, quiet_skip by now apply calm_quiet.
    reflexivity.
Qed.

(** Lines 78-86: the loop over the records of a page ends normally or by
    the exception of line 79; either way the counter has grown by the
    number of records completed. *)
Lemma notices_loop_run (notices : list notice_data) (c : Z) (st : state) :
  exists (n : nat) raised clk fs recs,
    notices_loop url_resolve w notices c st
    = (Ok (c + Z.of_nat n, raised), State clk fs (trace st ++ recs))
    /\ forallb Spec.is_record_event recs = true
    /\ Spec.completes recs c n
    /\ (n <= length notices)%nat.
Proof.
  revert c st. induction notices as [|nd notices IH]; intros c st.
  - exists 0%nat, None, (clock st), (files st), []. cbn. unfold ret.
    rewrite Z.add_0_r, List.app_nil_r. destruct st. repeat split.
    + intros cur. exists cur. reflexivity.
    + lia.
  - cbn [notices_loop].
    destruct (urljoin url_resolve BASE_URL (url nd)) as [u|e].
    2:{ exists 0%nat, (Some e), (clock st), (files st), []. unfold ret.
        rewrite Z.add_0_r, List.app_nil_r. destruct st. repeat split.
        - intros cur. exists cur. reflexivity.
        - simpl. lia. }
    unfold bind at 1. unfold print at 1, emit at 1.
    unfold bind at 1. unfold try_except. unfold bind at 1.
    match goal with
    | |- context [scrape_detail_page url_resolve w u c nd ?s] =>
        destruct (scrape_detail_page_shape u c nd s)
          as (r & clk & fs & q & -> & Hshape)
    end.
    cbn [trace]. destruct r as [[]|e].
    + destruct Hshape as [([e He] & _) | (q' & -> & Hq')]; [discriminate|].
      unfold bind at 1. unfold sleep, emit. cbn [clock files trace]. unfold ret at 1.
      match goal with
      | |- context [notices_loop url_resolve w notices ?c' ?s] =>
          destruct (IH c' s)
            as (n & raised & clk' & fs' & recs & -> & Hrec & Hcomp & Hn)
      end.
      cbn [trace]. exists (S n), raised, clk', fs'.
      exists ((Print (MsgScrapingDetail u) :: RequestsGet u false
               :: Makedirs (case_dir_of c) :: q' ++ [Sleep 1]) ++ recs).
      split; [|split; [|split]].
      * f_equal; [do 2 f_equal; lia|]. f_equal.
        repeat (cbn [app]; rewrite <- ?List.app_assoc). reflexivity.
      * rewrite forallb_app, Hrec. cbn.
        rewrite forallb_app, (calm_record _ Hq'). reflexivity.
      * change (S n) with (1 + n)%nat.
        apply completes_app; [now apply completes_success | exact Hcomp].
      * simpl. lia.
    + unfold print at 1, emit at 1. unfold bind at 1. cbn [clock files trace].
      unfold ret at 1.
      match goal with
      | |- context [notices_loop url_resolve w notices ?c' ?s] =>
          destruct (IH c' s)
            as (n & raised & clk' & fs' & recs & -> & Hrec & Hcomp & Hn)
      end.
      cbn [trace]. exists n, raised, clk', fs'.
      exists ((Print (MsgScrapingDetail u) :: RequestsGet u false
               :: q ++ [Print (MsgErrorDetail u e)]) ++ recs).
      split; [|split; [|split]].
      * f_equal. f_equal.
        repeat (cbn [app]; rewrite <- ?List.app_assoc). reflexivity.
      * rewrite forallb_app, Hrec. cbn. rewrite forallb_app. cbn.
        destruct Hshape as [(_ & -> & _) | (q' & -> & Hq')]; cbn;
          [reflexivity | now rewrite (calm_record _ Hq')].
      * change n with (0 + n)%nat.
        apply completes_app; [|now rewrite Z.add_0_r].
        apply completes_failure.
        destruct Hshape as [(_ & -> & _) | H]; [now left | now right].
      * simpl. lia.
Qed.

(** *** One page *)

(** Lines 66-89: a turn of the page loop raises nothing and leaves one of
    the traces of [page_trace]. *)
Lemma page_body_run (start_page total_pages page_num c : Z) (st : state) :
  exists ex c' clk fs delta,
    page_body url_resolve w start_page total_pages page_num c st
    = (Ok (ex, c'), State clk fs (trace st ++ delta))
    /\ Spec.page_trace start_page total_pages page_num c ex c' delta.
Proof.
  unfold page_body. unfold bind at 1. unfold print at 1, emit at 1.
  unfold bind at 1. unfold try_except. unfold bind at 1.
  match goal with
  | |- context [get_data_from_json_api w page_num ?s] =>
      destruct (get_data_run page_num s) as (r & q & -> & Hq)
  end.
  cbn [clock files trace].
  destruct r as [[|nd notices]|e].
  - unfold bind at 1. unfold print at 1, emit at 1. cbn [clock files trace].
    destruct (Z.gtb_spec page_num start_page) as [Hgt|Hle].
    + unfold bind, print, emit, ret. cbn [clock files trace].
      eexists Break, c, _, _,
        (Print (MsgScrapingPage page_num total_pages)
         :: RequestsPost SEARCH_API_URL page_num
         :: q ++ [Print (MsgNoMoreNotices page_num);
                  Print (MsgReachedEnd (page_num - 1))]).
      split; [|apply Spec.page_end; [assumption | lia]].
      f_equal. f_equal.
      repeat (cbn [app]; rewrite <- ?List.app_assoc). reflexivity.
    + unfold ret.
      eexists Continue, c, _, _,
        (Print (MsgScrapingPage page_num total_pages)
         :: RequestsPost SEARCH_API_URL page_num
         :: q ++ [Print (MsgNoMoreNotices page_num)]).
      split; [|apply Spec.page_empty_first; assumption].
      f_equal. f_equal.
      repeat (cbn [app]; rewrite <- ?List.app_assoc). reflexivity.
  - unfold bind at 1.
    match goal with
    | |- context [notices_loop url_resolve w ?l c ?s] =>
        destruct (notices_loop_run l c s)
          as (n & raised & clk & fs & recs & -> & Hrec & Hcomp & _)
    end.
    unfold ret at 1. cbn [fst snd trace].
    destruct raised as [e|].
    + unfold bind, print, emit, ret. cbn [clock files trace].
      eexists Continue, (c + Z.of_nat n), _, _,
        (Print (MsgScrapingPage page_num total_pages)
         :: RequestsPost SEARCH_API_URL page_num
         :: q ++ recs ++ [Print (MsgErrorPage page_num e)]).
      split; [|apply Spec.page_records_error; assumption].
      f_equal. f_equal.
      repeat (cbn [app]; rewrite <- ?List.app_assoc). reflexivity.
    + unfold ret.
      eexists Continue, (c + Z.of_nat n), _, _,
        (Print (MsgScrapingPage page_num total_pages)
         :: RequestsPost SEARCH_API_URL page_num :: q ++ recs).
      split; [|apply Spec.page_records; assumption].
      f_equal. f_equal.
      repeat (cbn [app]; rewrite <- ?List.app_assoc). reflexivity.
  - unfold bind, print, emit, ret. cbn [clock files trace].
    eexists Continue, c, _, _,
      (Print (MsgScrapingPage page_num total_pages)
       :: RequestsPost SEARCH_API_URL page_num
       :: q ++ [Print (MsgErrorPage page_num e)]).
    split; [|apply Spec.page_error; assumption].
    f_equal. f_equal.
    repeat (cbn [app]; rewrite <- ?List.app_assoc). reflexivity.
Qed.

(** *** An address that cannot be joined *)



(** *** The page loop *)

(** Line 65: the page loop raises nothing and leaves a [pages_trace]. *)
Lemma pages_loop_run (start_page total_pages : Z) (pages : list Z) (c : Z)
    (st : state) :
  exists c' clk fs delta,
    pages_loop url_resolve w start_page total_pages pages c st
    = (Ok c', State clk fs (trace st ++ delta))
    /\ Spec.pages_trace start_page total_pages pages c c' delta.
Proof.
  revert c st. induction pages as [|p rest IH]; intros c st.
  - exists c, (clock st), (files st), []. cbn. unfold ret.
    rewrite List.app_nil_r. destruct st. split; [reflexivity | constructor].
  - cbn [pages_loop]. unfold bind at 1.
    destruct (page_body_run start_page total_pages p c st)
      as (ex & c1 & clk & fs & d1 & -> & Hd1).
    destruct ex.
    + destruct (IH c1 (State clk fs (trace st ++ d1)))
        as (c2 & clk' & fs' & d2 & -> & Hd2).
      cbn [trace]. exists c2, clk', fs', (d1 ++ d2).
      rewrite <- List.app_assoc. split; [reflexivity|].
      econstructor; eassumption.
    + unfold ret. exists c1, clk, fs, d1. split; [reflexivity|].
      now constructor.
Qed.




(** Lines 54-89 from a fresh process: the run raises only if the data
    directory cannot be made, and has then done nothing else. *)
Lemma scrape_pages_run (start_page max_pages : Z) :
  match makedirs_error w 0 DATA_DIR with
  | Some e =>
      scrape_pages url_resolve w start_page max_pages initial_state
      = (Raise e, State 1 ∅ [Makedirs DATA_DIR])
  | None =>
      exists c' clk fs delta,
        scrape_pages url_resolve w start_page max_pages initial_state
        = (Ok c',
           State clk fs
             (Makedirs DATA_DIR :: Print (MsgScrapingUpTo max_pages) :: delta))
        /\ Spec.pages_trace start_page max_pages
             (range start_page (max_pages + 1)) 1 c' delta
  end.
Proof.
  destruct (makedirs_error w 0 DATA_DIR) as [e|] eqn:Hmk;
    unfold scrape_pages; unfold bind at 1; rewrite os_makedirs_run;
    cbn [initial_state clock files trace app]; rewrite Hmk; [reflexivity|].
  cbv zeta. unfold bind at 1. unfold print, emit. cbn [clock files trace app].
  destruct (pages_loop_run start_page max_pages
              (range start_page (max_pages + 1)) 1
              (State 1 ∅ [Makedirs DATA_DIR; Print (MsgScrapingUpTo max_pages)]))
    as (c' & clk & fs & delta & Hrun & Hd).
  cbn [trace app] in Hrun. rewrite Hrun.
  exists c', clk, fs, delta. split; [reflexivity | exact Hd].
Qed.


(** The run ends in an exception only when the data directory cannot be
    made, and then nothing else was done.  No exception of a request, of
    the file system inside a case, of joining an address, of decoding the
    answer or of parsing a date ends the run: each is caught at line 85 or
    at line 88.  (Printing is taken to succeed: an exception of [print]
    inside the handler of line 89 would leave the function.) *)
Theorem run_raises_only_for_data_dir (start_page max_pages : Z) :
  let run := scrape_pages url_resolve w start_page max_pages initial_state in
  (makedirs_error w 0 DATA_DIR = None -> exists case_counter, fst run = Ok case_counter)
  /\ (forall e, makedirs_error w 0 DATA_DIR = Some e ->
       run = (Raise e, State 1 ∅ [Makedirs DATA_DIR])).
Proof.
  intros run. subst run.
  pose proof (scrape_pages_run start_page max_pages) as Hrun.
  split.
  - intros Hmk. rewrite Hmk in Hrun.
    destruct Hrun as (c' & clk & fs & delta & -> & _). eauto.
  - intros e Hmk. now rewrite Hmk in Hrun.
Qed.

(** *** Which pages are requested *)

Lemma posted_pages_app (a b : list event) :
  Spec.posted_pages (a ++ b) = Spec.posted_pages a ++ Spec.posted_pages b.
Proof.
  induction a as [|e a IH]; [reflexivity|].
  destruct e; cbn; rewrite IH; reflexivity.
Qed.

Lemma posted_pages_api (q : list event) :
  forallb Spec.is_api_print q = true -> Spec.posted_pages q = [].
Proof.
  induction q as [|e q IH]; [reflexivity|]. cbn.
  intros [He Hq]%andb_prop. destruct e; try discriminate; auto.
Qed.

Lemma posted_pages_records (q : list event) :
  forallb Spec.is_record_event q = true -> Spec.posted_pages q = [].
Proof.
  induction q as [|e q IH]; [reflexivity|]. cbn.
  intros [He Hq]%andb_prop. destruct e; try discriminate; auto.
Qed.

(** A turn of the page loop sends one request, for its own page. *)
Lemma page_trace_posted start_page total_pages p c ex c' d :
  Spec.page_trace start_page total_pages p c ex c' d ->
  Spec.posted_pages d = [p].
Proof.
  intros [q Hq Hp | q Hq Hp | q recs n Hq Hrec Hcomp | q e Hq
          | q recs n e Hq Hrec Hcomp]; cbn;
    rewrite !posted_pages_app, (posted_pages_api _ Hq); cbn;
    rewrite ?(posted_pages_records _ Hrec); reflexivity.
Qed.

Lemma pages_trace_posted start_page total_pages pages c c' d :
  Spec.pages_trace start_page total_pages pages c c' d ->
  exists k : nat, Spec.posted_pages d = take k pages.
Proof.
  induction 1 as [c | p rest c c' d Hd | p rest c c1 c2 d1 d2 Hd1 _ IH].
  - exists 0%nat. reflexivity.
  - exists 1%nat. rewrite (page_trace_posted _ _ _ _ _ _ _ Hd).
    cbn. now rewrite take_0.
  - destruct IH as [k Hk]. exists (S k).
    rewrite posted_pages_app, (page_trace_posted _ _ _ _ _ _ _ Hd1), Hk.
    reflexivity.
Qed.

(** The pages sent to the search API are an initial stretch of
    [range(START_PAGE, MAX_PAGES + 1)]: in increasing order from the start
    page, none twice, none skipped, none beyond the last page. *)
Theorem requested_pages_are_a_prefix (start_page max_pages : Z) :
  let run := scrape_pages url_resolve w start_page max_pages initial_state in
  exists k : nat,
    Spec.posted_pages (trace (snd run))
    = take k (range start_page (max_pages + 1)).
Proof.
  intros run. subst run.
  pose proof (scrape_pages_run start_page max_pages) as Hrun.
  destruct (makedirs_error w 0 DATA_DIR) as [e|].
  - rewrite Hrun. exists 0%nat. reflexivity.
  - destruct Hrun as (c' & clk & fs & delta & -> & Hd).
    destruct (pages_trace_posted _ _ _ _ _ _ Hd) as [k Hk].
    exists k. cbn. exact Hk.
Qed.

(** *** A page without results *)

Lemma no_more_absent (d pre post : list event) x :
  forallb (fun e => negb (Spec.is_no_more e)) d = true ->
  Spec.is_no_more x = true -> d <> pre ++ x :: post.
Proof.
  intros Hd Hx ->. rewrite forallb_app in Hd.
  apply andb_prop in Hd as [_ Hd]. cbn in Hd. now rewrite Hx in Hd.
Qed.

Lemma api_print_not_no_more (q : list event) :
  forallb Spec.is_api_print q = true ->
  forallb (fun e => negb (Spec.is_no_more e)) q = true.
Proof.
  induction q as [|e q IH]; simpl; [reflexivity|].
  intros [He Hq]%andb_prop. rewrite (IH Hq).
  destruct e as [[]| | | | | |]; try discriminate; reflexivity.
Qed.

Lemma record_event_not_no_more (q : list event) :
  forallb Spec.is_record_event q = true ->
  forallb (fun e => negb (Spec.is_no_more e)) q = true.
Proof.
  induction q as [|e q IH]; simpl; [reflexivity|].
  intros [He Hq]%andb_prop. rewrite (IH Hq).
  destruct e as [[]| | | | | |]; try discriminate; reflexivity.
Qed.

Lemma split_before (a b pre post : list event) x :
  forallb (fun e => negb (Spec.is_no_more e)) a = true ->
  Spec.is_no_more x = true ->
  pre ++ x :: post = a ++ b ->
  exists pre', pre = a ++ pre' /\ b = pre' ++ x :: post.
Proof.
  revert pre. induction a as [|e a IH]; intros pre Ha Hx Heq.
  - exists pre. auto.
  - cbn in Ha. apply andb_prop in Ha as [He Ha].
    destruct pre as [|e' pre]; cbn in Heq; injection Heq as -> Heq.
    + now rewrite Hx in He.
    + destruct (IH pre Ha Hx Heq) as (pre' & -> & ->). eauto.
Qed.

(** Where the no-results line can stand in the trace of one turn: at its
    end, or followed by the end-of-results line alone. *)
Lemma page_trace_no_more start_page total_pages p c ex c' d pre p' post :
  Spec.page_trace start_page total_pages p c ex c' d ->
  d = pre ++ Print (MsgNoMoreNotices p') :: post ->
  p' = p
  /\ ((ex = Break /\ p > start_page
       /\ post = [Print (MsgReachedEnd (p - 1))])
      \/ (ex = Continue /\ p <= start_page /\ post = [])).
Proof.
  intros [q Hq Hp | q Hq Hp | q recs n Hq Hrec Hcomp | q e Hq
          | q recs n e Hq Hrec Hcomp] Heq.
  - symmetry in Heq.
    apply (split_before
             (Print (MsgScrapingPage p total_pages)
              :: RequestsPost SEARCH_API_URL p :: q)) in Heq
      as (pre' & _ & E); [| cbn; now apply api_print_not_no_more | reflexivity].
    destruct pre' as [|x [|y [|z l]]]; cbn in E; try discriminate.
    injection E as <- <-. split; [reflexivity|]. left. auto.
  - symmetry in Heq.
    apply (split_before
             (Print (MsgScrapingPage p total_pages)
              :: RequestsPost SEARCH_API_URL p :: q)) in Heq
      as (pre' & _ & E); [| cbn; now apply api_print_not_no_more | reflexivity].
    destruct pre' as [|x [|y l]]; cbn in E; try discriminate.
    injection E as <- <-. split; [reflexivity|]. right. auto.
  - exfalso. revert Heq. apply no_more_absent; [|reflexivity].
    cbn. rewrite forallb_app, (api_print_not_no_more _ Hq).
    now apply record_event_not_no_more.
  - exfalso. revert Heq. apply no_more_absent; [|reflexivity].
    cbn. rewrite forallb_app, (api_print_not_no_more _ Hq). reflexivity.
  - exfalso. revert Heq. apply no_more_absent; [|reflexivity].
    cbn. rewrite !forallb_app, (api_print_not_no_more _ Hq),
      (record_event_not_no_more _ Hrec). reflexivity.
Qed.

Lemma page_trace_head start_page total_pages p c ex c' d :
  Spec.page_trace start_page total_pages p c ex c' d ->
  exists tl, d = Print (MsgScrapingPage p total_pages)
                 :: RequestsPost SEARCH_API_URL p :: tl.
Proof. intros []; eauto. Qed.

(** The trace of the page loop begins with the first page still to visit. *)
Lemma pages_trace_head start_page total_pages pages c c' d :
  Spec.pages_trace start_page total_pages pages c c' d ->
  match pages with
  | [] => d = []
  | p :: _ => exists tl, d = Print (MsgScrapingPage p total_pages)
                             :: RequestsPost SEARCH_API_URL p :: tl
  end.
Proof.
  intros [c0 | p rest c0 c1 d0 Hd | p rest c0 c1 c2 d1 d2 Hd1 _].
  - reflexivity.
  - eapply page_trace_head, Hd.
  - destruct (page_trace_head _ _ _ _ _ _ _ Hd1) as [tl ->]. cbn. eauto.
Qed.

(** After the no-results line of a page the loop either stops, when the
    page is after the start page, or turns to the next page. *)
Lemma pages_trace_rule start_page total_pages pages c c' d :
  Spec.pages_trace start_page total_pages pages c c' d ->
  forall pre p post,
    d = pre ++ Print (MsgNoMoreNotices p) :: post ->
    exists l1 l2,
      pages = l1 ++ p :: l2
      /\ ((p > start_page /\ post = [Print (MsgReachedEnd (p - 1))])
          \/ (p <= start_page
              /\ match l2 with
                 | [] => post = []
                 | p' :: _ =>
                     exists post',
                       post = Print (MsgScrapingPage p' total_pages)
                              :: RequestsPost SEARCH_API_URL p' :: post'
                 end)).
Proof.
  induction 1 as [c | p0 rest c c' d Hd | p0 rest c c1 c2 d1 d2 Hd1 Hd2 IH];
    intros pre p post Heq.
  - destruct pre; discriminate.
  - destruct (page_trace_no_more _ _ _ _ _ _ _ _ _ _ Hd Heq)
      as [-> [(_ & Hp & ->) | (Hex & _)]]; [|discriminate].
    exists [], rest. split; [reflexivity|]. left. auto.
  - apply app_eq_app in Heq as [l [[E1 E2] | [E1 E2]]].
    + destruct l as [|x l]; cbn in E2.
      * destruct (IH [] p post) as (l1 & l2 & -> & Hrule); [now rewrite <- E2|].
        exists (p0 :: l1), l2. split; [reflexivity | exact Hrule].
      * injection E2 as <- ->.
        destruct (page_trace_no_more _ _ _ _ _ _ _ _ _ _ Hd1 E1)
          as [-> [(Hex & _) | (_ & Hp & ->)]]; [discriminate|].
        exists [], rest. split; [reflexivity|]. right. split; [exact Hp|].
        cbn. apply pages_trace_head in Hd2. exact Hd2.
    + destruct (IH l p post E2) as (l1 & l2 & -> & Hrule).
      exists (p0 :: l1), l2. split; [reflexivity | exact Hrule].
Qed.

(** When the search client returns no results for a page, the run goes on
    to the next page if that page is the start page, and ends after the
    end-of-results line if it is a later page. *)
Theorem empty_page_continues_only_from_start_page (start_page max_pages : Z)
    (pre : list event) (p : Z) (post : list event) :
  let run := scrape_pages url_resolve w start_page max_pages initial_state in
  trace (snd run) = pre ++ Print (MsgNoMoreNotices p) :: post ->
  start_page <= p <= max_pages
  /\ (p > start_page -> post = [Print (MsgReachedEnd (p - 1))])
  /\ (p = start_page ->
      (start_page < max_pages ->
       exists post',
         post = Print (MsgScrapingPage (start_page + 1) max_pages)
                :: RequestsPost SEARCH_API_URL (start_page + 1) :: post')
      /\ (max_pages <= start_page -> post = [])).
Proof.
  intros run. subst run.
  pose proof (scrape_pages_run start_page max_pages) as Hrun.
  destruct (makedirs_error w 0 DATA_DIR) as [e|].
  { rewrite Hrun. cbn. intros Heq.
    destruct pre as [|x [|y pre]]; discriminate. }
  destruct Hrun as (c' & clk & fs & delta & -> & Hd). cbn [snd trace].
  intros Heq.
  destruct pre as [|x [|y pre]]; try discriminate.
  injection Heq as _ _ Heq.
  destruct (pages_trace_rule _ _ _ _ _ _ Hd _ _ _ Heq) as (l1 & l2 & Hrange & Hrule).
  unfold range in Hrange.
  assert (seqZ start_page (max_pages + 1 - start_page) !! length l1 = Some p) as Hl.
  { rewrite Hrange. rewrite lookup_app_r by lia.
    now rewrite Nat.sub_diag. }
  apply lookup_seqZ in Hl as [Hp Hlen].
  split; [lia|]. split.
  - intros Hgt. destruct Hrule as [[_ ->] | [Hle _]]; [reflexivity | lia].
  - intros ->. destruct Hrule as [[Hgt _] | [_ Hnext]]; [lia|].
    assert (l1 = []) as -> by (destruct l1; [reflexivity | cbn in Hp; lia]).
    cbn in Hrange. rewrite seqZ_cons in Hrange by lia.
    injection Hrange as Hl2. split.
    + intros Hlt. rewrite seqZ_cons in Hl2 by lia. subst l2.
      replace (Z.succ start_page) with (start_page + 1) in Hnext by lia.
      exact Hnext.
    + intros Hge. rewrite seqZ_nil in Hl2 by lia. now subst l2.
Qed.

End NumberingFacts.


Lemma run_raises_only_for_data_dir_witness :
  exists case_counter,
    fst (scrape_pages Examples.resolve Examples.world_no_tag 1 2 initial_state)
    = Ok case_counter.
Proof.
  apply (run_raises_only_for_data_dir Examples.resolve Examples.world_no_tag 1 2).
  reflexivity.
Defined.

Lemma empty_page_continues_witness :
  1 <= 1 <= 2
  /\ (1 > 1 ->
      [Print (MsgScrapingPage 2 2); RequestsPost SEARCH_API_URL 2;
       Print (MsgJsonData (JsonObject (Some [])));
       Print (MsgNoMoreNotices 2); Print (MsgReachedEnd 1)]
      = [Print (MsgReachedEnd (1 - 1))])
  /\ (1 = 1 ->
      (1 < 2 ->
       exists post',
         [Print (MsgScrapingPage 2 2); RequestsPost SEARCH_API_URL 2;
          Print (MsgJsonData (JsonObject (Some [])));
          Print (MsgNoMoreNotices 2); Print (MsgReachedEnd 1)]
         = Print (MsgScrapingPage (1 + 1) 2)
           :: RequestsPost SEARCH_API_URL (1 + 1) :: post')
      /\ (2 <= 1 ->
          [Print (MsgScrapingPage 2 2); RequestsPost SEARCH_API_URL 2;
           Print (MsgJsonData (JsonObject (Some [])));
           Print (MsgNoMoreNotices 2); Print (MsgReachedEnd 1)] = [])).
Proof.
  apply (empty_page_continues_only_from_start_page Examples.resolve
           Examples.world_no_tag 1 2
           [Makedirs DATA_DIR; Print (MsgScrapingUpTo 2);
            Print (MsgScrapingPage 1 2); RequestsPost SEARCH_API_URL 1;
            Print (MsgJsonData (JsonObject (Some [])))]
           1).
  vm_compute. reflexivity.
Defined.


(** The numbering on that path, run to the end: with two pages of five
    results each, whose third address cannot be joined, two records are
    saved from each page, in [case-1] to [case-4], and the counter ends at
    5. *)
Example bad_address_run :
  let run :=
    scrape_pages Examples.resolve Examples.world_bad_address 1 2
      initial_state in
  fst run = Ok 5
  /\ Spec.completed_case_dirs None (trace (snd run))
     = [ "ico-decision-notice/data/case-1"; "ico-decision-notice/data/case-2";
         "ico-decision-notice/data/case-3"; "ico-decision-notice/data/case-4" ]
  /\ Spec.posted_pages (trace (snd run)) = [1; 2].
Proof. vm_compute. repeat split. Qed.

(** ** Date parsing: the format ["%d %B %Y"] *)

Module RegexFacts.
Import PyStr PyDate.


Lemma re_classes_complete cls t r :
  Spec.in_classes cls t = true -> re_classes cls (t +:+ r) = Some (t, r).
Proof.
  revert t. induction cls as [|[lo hi] cls IH]; intros [|c t]; simpl;
    try discriminate; [reflexivity|].
  intros [Hc Ht]%andb_prop. now rewrite Hc, (IH _ Ht).
Qed.


Lemma re_literal_complete t r : re_literal (lower t) (t +:+ r) = Some (t, r).
Proof.
  induction t as [|c t IH]; simpl; [reflexivity|].
  now rewrite Ascii.eqb_refl, IH.
Qed.




(** [\s+] before a text that does not begin with white space takes the
    whole run, when the continuation succeeds there. *)
Lemma re_spaces_complete {A} (k : string -> option A) ws r x :
  all_chars isspace ws = true -> lstrip r = r -> k r = Some x ->
  re_spaces k (ws +:+ r) = Some x.
Proof.
  intros Hws Hr Hk. induction ws as [|c ws IH]; simpl in *.
  - destruct r as [|c r]; [assumption|]. simpl in *.
    destruct (isspace c) eqn:Hc; [|assumption].
    exfalso. destruct (PyStrFacts.lstrip_split r) as [l [Hl _]].
    rewrite Hr in Hl. apply (f_equal String.length) in Hl.
    rewrite PyStrFacts.length_app in Hl. simpl in Hl. lia.
  - apply andb_prop in Hws as [Hc Hws]. now rewrite Hc, (IH Hws).
Qed.

Lemma re_spaces1_complete {A} (k : string -> option A) ws r x :
  Spec.spaces1 ws -> lstrip r = r -> k r = Some x ->
  re_spaces1 k (ws +:+ r) = Some x.
Proof.
  intros [Hne Hws] Hr Hk. destruct ws as [|c ws]; [discriminate|].
  simpl in *. apply andb_prop in Hws as [Hc Hws]. rewrite Hc.
  now apply re_spaces_complete.
Qed.

End RegexFacts.

Module DateFacts.
Import PyStr PyDate DigitFacts RegexFacts.

(** The white-space characters below 256. *)
Lemma space_cases (c : ascii) :
  isspace c = true ->
  In c ["009"; "010"; "011"; "012"; "013"; "028"; "029"; "030"; "031"; " ";
        "133"; "160"]%char.
Proof.
  unfold isspace. rewrite !orb_true_iff, !in_range_iff, !Z.eqb_eq.
  intros H.
  assert (In (code c) [9; 10; 11; 12; 13; 28; 29; 30; 31; 32; 133; 160]) as Hin
    by (simpl; lia).
  simpl in Hin. simpl.
  repeat (destruct Hin as [Hin | Hin];
          [left; apply code_inj; rewrite <- Hin; reflexivity | right]).
  destruct Hin.
Qed.

Lemma isdigit_not_space (c : ascii) : isdigit c = true -> isspace c = false.
Proof.
  unfold isdigit, isspace. rewrite in_range_iff. intros H.
  rewrite !orb_false_iff. unfold in_range.
  rewrite !andb_false_iff, !Z.leb_gt, !Z.eqb_neq. lia.
Qed.

Lemma lstrip_digits (t : string) : all_chars isdigit t = true -> lstrip t = t.
Proof.
  destruct t as [|c t]; simpl; [reflexivity|].
  intros [Hc _]%andb_prop. now rewrite (isdigit_not_space _ Hc).
Qed.

Lemma rstrip_digits (t : string) : all_chars isdigit t = true -> rstrip t = t.
Proof.
  induction t as [|c t IH]; simpl; [reflexivity|].
  intros [Hc Ht]%andb_prop. rewrite (IH Ht).
  destruct t; [now rewrite (isdigit_not_space _ Hc) | reflexivity].
Qed.

(** [int] of a non-empty run of digits is its decimal value. *)
Lemma int_digits (t : string) :
  truthy t = true -> all_chars isdigit t = true ->
  int t = Ok (digits_value 0 t).
Proof.
  intros Hne Hd. unfold int, strip.
  rewrite (lstrip_digits _ Hd), (rstrip_digits _ Hd), Hne, Hd. reflexivity.
Qed.



Lemma in_range_digit lo hi c :
  48 <= lo -> hi <= 57 -> in_range lo hi c = true -> isdigit c = true.
Proof. unfold isdigit. rewrite !in_range_iff. lia. Qed.










(** *** Completeness *)

Lemma year_complete y :
  0 <= y <= 9999 ->
  Spec.in_classes [(48, 57); (48, 57); (48, 57); (48, 57)] (pad4 y) = true
  /\ int (pad4 y) = Ok y.
Proof.
  intros Hy.
  assert (all_chars isdigit (pad4 y) = true) as Hd.
  { unfold pad4, pad2. simpl.
    now rewrite !isdigit_digit_char by apply mod10_bound. }
  split.
  - unfold pad4, pad2 in *. simpl in *. exact Hd.
  - rewrite int_digits by (assumption || reflexivity).
    unfold pad4, pad2. simpl.
    rewrite !digit_value_digit_char by apply mod10_bound.
    f_equal. pose proof (pad4_value y ltac:(lia)). lia.
Qed.

Lemma re_literal_mismatch lit t r :
  Spec.mismatch lit (lower t) = true -> re_literal lit (t +:+ r) = None.
Proof.
  revert t. induction lit as [|l lit IH]; intros [|c t]; simpl;
    try discriminate.
  destruct (Ascii.eqb (lower_char c) l); [|reflexivity].
  intros H. now rewrite (IH _ H).
Qed.

Lemma re_alt_skip {A} a alts (k : string -> string -> option A) s :
  a s = None -> re_alt (a :: alts) k s = re_alt alts k s.
Proof. intros H. simpl. now rewrite H. Qed.

Lemma re_alt_take {A} a alts (k : string -> string -> option A) s t r x :
  a s = Some (t, r) -> k t r = Some x -> re_alt (a :: alts) k s = Some x.
Proof. intros H Hk. simpl. now rewrite H, Hk. Qed.

(** The alternation of month names takes the month's own name. *)
Lemma month_complete {A} (k : string -> string -> option A) m mtxt r x :
  1 <= m <= 12 -> lower mtxt = lower (Spec.month_name m) ->
  k mtxt r = Some x ->
  re_alt (map re_literal month_alternatives) k (mtxt +:+ r) = Some x
  /\ index (lower mtxt) f_month = Ok m.
Proof.
  intros Hm Hlower Hk.
  assert (m = 1 \/ m = 2 \/ m = 3 \/ m = 4 \/ m = 5 \/ m = 6 \/ m = 7
          \/ m = 8 \/ m = 9 \/ m = 10 \/ m = 11 \/ m = 12) as Hc by lia.
  repeat (destruct Hc as [-> | Hc]); subst;
    match type of Hlower with
    | _ = ?rhs => let v := eval vm_compute in rhs in change rhs with v in Hlower
    end;
    (split; [|rewrite Hlower; reflexivity]);
    cbn [map month_alternatives];
    repeat first
      [ rewrite re_alt_skip
          by (apply re_literal_mismatch; rewrite Hlower; reflexivity)
      | eapply re_alt_take;
          [rewrite <- Hlower; apply re_literal_complete | exact Hk] ].
Qed.

Lemma two_digit_cases d :
  10 <= d <= 31 ->
  In d [10; 11; 12; 13; 14; 15; 16; 17; 18; 19; 20; 21; 22; 23; 24; 25; 26;
        27; 28; 29; 30; 31].
Proof. intros H. simpl. lia. Qed.

Lemma one_digit_cases d : 1 <= d <= 9 -> In d [1; 2; 3; 4; 5; 6; 7; 8; 9].
Proof. intros H. simpl. lia. Qed.

Ltac each_in H :=
  simpl in H; repeat (destruct H as [<- | H]); [ .. | destruct H ].

(** [int] reads the day back from each of its texts. *)
Lemma day_int d dtxt : Spec.day_text d dtxt -> int dtxt = Ok d.
Proof.
  intros [d0 H | d0 H | d0 H | d0 H].
  - apply one_digit_cases in H. each_in H; reflexivity.
  - apply one_digit_cases in H. each_in H; reflexivity.
  - apply one_digit_cases in H. each_in H; reflexivity.
  - apply two_digit_cases in H. each_in H; reflexivity.
Qed.

(** The alternation of day patterns takes the day text when white space
    follows it. *)
Lemma day_complete {A} (k : string -> string -> option A) d dtxt c r x :
  Spec.day_text d dtxt -> isspace c = true ->
  k dtxt (String c r) = Some x ->
  re_alt (map re_classes day_alternatives) k (dtxt +:+ String c r) = Some x.
Proof.
  intros Hd Hc Hk. apply space_cases in Hc.
  destruct Hd as [d0 H | d0 H | d0 H | d0 H].
  - apply one_digit_cases in H. each_in H; each_in Hc;
      vm_compute in Hk; vm_compute; rewrite Hk; reflexivity.
  - apply one_digit_cases in H. each_in H; each_in Hc;
      vm_compute in Hk; vm_compute; rewrite Hk; reflexivity.
  - apply one_digit_cases in H. each_in H; each_in Hc;
      vm_compute in Hk; vm_compute; rewrite Hk; reflexivity.
  - apply two_digit_cases in H. each_in H; each_in Hc;
      vm_compute in Hk; vm_compute; rewrite Hk; reflexivity.
Qed.

Lemma lower_char_space c : isspace c = true -> lower_char c = c.
Proof. intros H. apply space_cases in H. each_in H; reflexivity. Qed.

(** A month name does not begin with white space. *)
Lemma month_lstrip m mtxt r :
  1 <= m <= 12 -> lower mtxt = lower (Spec.month_name m) ->
  lstrip (mtxt +:+ r) = mtxt +:+ r.
Proof.
  intros Hm Hlower.
  assert (exists c t, mtxt = String c t /\ isspace (lower_char c) = false)
    as (c & t & -> & Hc).
  { assert (m = 1 \/ m = 2 \/ m = 3 \/ m = 4 \/ m = 5 \/ m = 6 \/ m = 7
            \/ m = 8 \/ m = 9 \/ m = 10 \/ m = 11 \/ m = 12) as Hcase by lia.
    repeat (destruct Hcase as [-> | Hcase]); subst;
      match type of Hlower with
      | _ = ?rhs => let v := eval vm_compute in rhs in change rhs with v in Hlower
      end;
      (destruct mtxt as [|c t]; [discriminate|]);
      simpl in Hlower; injection Hlower as Hc _;
      exists c, t; (split; [reflexivity|]); rewrite Hc; reflexivity. }
  simpl. destruct (isspace c) eqn:Hs; [|reflexivity].
  rewrite (lower_char_space _ Hs) in Hc. congruence.
Qed.

Lemma pad4_lstrip y r : lstrip (pad4 y +:+ r) = pad4 y +:+ r.
Proof.
  unfold pad4. simpl.
  now rewrite digit_char_not_space by apply mod10_bound.
Qed.

(** A text written in the format is matched, group by group. *)
Lemma format_regex_match_complete dtxt w1 mtxt w2 d m y :
  Spec.day_text d dtxt -> Spec.spaces1 w1 -> Spec.spaces1 w2 ->
  1 <= m <= 12 -> lower mtxt = lower (Spec.month_name m) ->
  0 <= y <= 9999 ->
  format_regex_match (dtxt +:+ w1 +:+ mtxt +:+ w2 +:+ pad4 y)
  = Some (dtxt, mtxt, pad4 y, EmptyString).
Proof.
  intros Hd Hw1 Hw2 Hm Hlower Hy. unfold format_regex_match.
  destruct w1 as [|c w1]; [destruct Hw1; discriminate|].
  assert (isspace c = true) as Hc
    by (destruct Hw1 as [_ H]; simpl in H; now apply andb_prop in H).
  change (String c w1 +:+ mtxt +:+ w2 +:+ pad4 y)
    with (String c (w1 +:+ mtxt +:+ w2 +:+ pad4 y)).
  eapply day_complete; [exact Hd | exact Hc |].
  change (String c (w1 +:+ mtxt +:+ w2 +:+ pad4 y))
    with (String c w1 +:+ mtxt +:+ w2 +:+ pad4 y).
  apply re_spaces1_complete;
    [exact Hw1 | now apply (month_lstrip m) |].
  apply (month_complete _ m); [exact Hm | exact Hlower |].
  apply re_spaces1_complete; [exact Hw2 | apply pad4_lstrip |].
  rewrite <- (PyStrFacts.app_nil_r (pad4 y)) at 1.
  rewrite re_classes_complete by now apply year_complete.
  reflexivity.
Qed.



End DateFacts.

(** *** The normalizer's date (lines 124-129) and its rendering (line 190) *)

Lemma day_D_text d : 1 <= d <= 31 -> Spec.day_text d (Spec.day_D d).
Proof.
  intros H. unfold Spec.day_D. destruct (Z.ltb_spec d 10).
  - apply Spec.day_plain. lia.
  - apply Spec.day_two. lia.
Qed.

Lemma spaces1_blank : Spec.spaces1 " ".
Proof. split; reflexivity. Qed.

(** A text ["D Month YYYY"] is parsed as the constructor of [date] decides:
    to its date when that is a calendar date, to a [ValueError] when it is
    not (31 February, 29 February outside a leap year, the year 0000). *)
Lemma strptime_D_Month_YYYY y m d :
  0 <= y <= 9999 -> 1 <= m <= 12 -> 1 <= d <= 31 ->
  PyDate.strptime (Spec.D_Month_YYYY y m d) = PyDate.make_date y m d.
Proof.
  intros Hy Hm Hd. unfold PyDate.strptime, Spec.D_Month_YYYY.
  rewrite (DateFacts.format_regex_match_complete _ " " _ " " d m y
             (day_D_text d Hd) spaces1_blank spaces1_blank Hm eq_refl Hy).
  cbn [PyStr.truthy].
  destruct (DateFacts.year_complete y Hy) as [_ ->].
  destruct (DateFacts.month_complete (fun _ _ => Some tt) m
              (Spec.month_name m) EmptyString tt Hm eq_refl eq_refl) as [_ ->].
  rewrite (DateFacts.day_int _ _ (day_D_text d Hd)). reflexivity.
Qed.

Lemma truthy_D_Month_YYYY y m d : PyStr.truthy (Spec.D_Month_YYYY y m d) = true.
Proof.
  unfold Spec.D_Month_YYYY, Spec.day_D.
  destruct (d <? 10); reflexivity.
Qed.

(** Round trip of a date through the normalizer and the writer: the text
    ["D Month YYYY"] of a calendar date from the year 1000 on is parsed to
    that date without a warning, and the [Date:] line then written for it
    reads back as the same year, month and day.  (Below the year 1000
    [%Y] is written with fewer than four digits.) *)
Theorem date_round_trip (y m d : Z) (st : state) :
  1000 <= y ->
  PyDate.valid_date y m d = true ->
  parse_date (Spec.D_Month_YYYY y m d) st = (Ok (Some (PyDate.Date y m d)), st)
  /\ Spec.read_iso (date_text (Some (PyDate.Date y m d))) = Some (y, m, d).
Proof.
  intros Hyear Hvalid.
  pose proof (DigitFacts.valid_date_bounds _ _ _ Hvalid) as (Hy & Hm & _ & Hd).
  split.
  - unfold parse_date. rewrite truthy_D_Month_YYYY.
    unfold try_except, bind. rewrite lift_run.
    rewrite strptime_D_Month_YYYY by lia.
    unfold PyDate.make_date. rewrite Hvalid. reflexivity.
  - apply (DigitFacts.read_iso_strftime (PyDate.Date y m d)); simpl; lia.
Qed.

Lemma date_round_trip_witness :
  parse_date "29 February 2024" initial_state
  = (Ok (Some (PyDate.Date 2024 2 29)), initial_state)
  /\ Spec.read_iso "2024-02-29" = Some (2024, 2, 29).
Proof.
  apply (date_round_trip 2024 2 29 initial_state); [lia | reflexivity].
Defined.

(** A day that the month does not have is no date: the text is of the
    right form, [strptime] raises, and the normalizer yields an absent date
    and prints the warning. *)
Theorem nonexistent_day_gives_absent_date (y m d : Z) (st : state) :
  0 <= y <= 9999 -> 1 <= m <= 12 -> 1 <= d <= 31 ->
  PyDate.valid_date y m d = false ->
  parse_date (Spec.D_Month_YYYY y m d) st
  = (Ok None,
     State (clock st) (files st)
       (trace st ++ [Print (MsgCouldNotParseDate (Spec.D_Month_YYYY y m d))])).
Proof.
  intros Hy Hm Hd Hinvalid.
  unfold parse_date. rewrite truthy_D_Month_YYYY.
  unfold try_except, bind. rewrite lift_run.
  rewrite strptime_D_Month_YYYY by lia.
  unfold PyDate.make_date. rewrite Hinvalid. reflexivity.
Qed.

Lemma nonexistent_day_witness :
  parse_date "29 February 2025" initial_state
  = (Ok None,
     State 0 ∅ [Print (MsgCouldNotParseDate "29 February 2025")]).
Proof.
  apply (nonexistent_day_gives_absent_date 2025 2 29 initial_state);
    try lia; reflexivity.
Defined.




(** ** Further facts on the search client and on one record *)

Section RecordFacts.
Import PyStr.
Variable url_resolve : string -> string -> result string.
Variable w : world.

(** *** The search client on an answer that is no object *)

(** A JSON answer that is not an object makes [data.get] raise
    [AttributeError].  Neither handler of [get_data_from_json_api] catches
    it; the handler of the page loop (line 88) does: the page is reported
    as failed, the loop goes on and the case counter is unchanged. *)
Theorem non_object_answer_is_a_page_error
    (start_page total_pages page_num c : Z) (st : state)
    (resp : search_response) :
  post_answer w (clock st) page_num = Ok resp ->
  ~ (400 <= search_status resp < 600) ->
  search_json resp = Ok JsonOther ->
  let e := Exn AttributeError "object has no attribute 'get'" in
  fst (get_data_from_json_api w page_num st) = Raise e
  /\ page_body url_resolve w start_page total_pages page_num c st
     = (Ok (Continue, c),
        State (S (clock st)) (files st)
          (trace st ++ [Print (MsgScrapingPage page_num total_pages);
                        RequestsPost SEARCH_API_URL page_num;
                        Print (MsgJsonData JsonOther);
                        Print (MsgErrorPage page_num e)])).
Proof.
  intros Hpost Hstatus Hjson e.
  assert (forall st0, clock st0 = clock st ->
            get_data_from_json_api w page_num st0
            = (Raise e, State (S (clock st)) (files st0)
                 (trace st0 ++ [RequestsPost SEARCH_API_URL page_num;
                                Print (MsgJsonData JsonOther)]))) as Hrun.
  { intros st0 Hclock.
    unfold get_data_from_json_api, try_except.
    unfold bind at 1. rewrite requests_post_run, Hclock, Hpost.
    unfold bind at 1. rewrite raise_for_status_ok by assumption.
    unfold bind at 1. rewrite lift_run, Hjson.
    unfold bind at 1. unfold print, emit, raise. cbn [clock files trace].
    cbn [is_RequestException is_JSONDecodeError exn_class_of].
    rewrite <- !List.app_assoc. reflexivity. }
  split.
  - rewrite (Hrun st eq_refl). reflexivity.
  - unfold page_body. unfold bind at 1. unfold print at 1, emit at 1.
    unfold bind at 1. unfold try_except. unfold bind at 1.
    rewrite Hrun by reflexivity.
    unfold bind, print, emit, ret. cbn [clock files trace].
    rewrite <- !List.app_assoc. reflexivity.
Qed.

(** *** The files of one record *)

Lemma download_pdf_files (case_dir pdf_url pdf_filename : string) (st : state) :
  let fs := files (snd (download_pdf w case_dir pdf_url pdf_filename st)) in
  fs = files st
  \/ exists content,
       fs = <[PosixPath.join case_dir pdf_filename := content]> (files st).
Proof.
  destruct (String.eqb pdf_url "Not found") eqn:Hurl.
  { left. unfold download_pdf. rewrite Hurl. reflexivity. }
  cbv zeta. rewrite (download_pdf_run w _ _ _ _ Hurl).
  destruct (stream_answer w (clock st) pdf_url) as [sr|e].
  2:{ left. destruct (is_RequestException e); reflexivity. }
  destruct ((400 <=? stream_status sr) && (stream_status sr <? 600)).
  { left. reflexivity. }
  destruct (open_error w (S (clock st)) _) as [e|].
  { left. destruct (is_RequestException e); reflexivity. }
  right. eexists.
  destruct (stream_error sr) as [e|];
    [destruct (is_RequestException e)|]; reflexivity.
Qed.

Lemma scrape_detail_page_files (target : string) (c : Z) (nd : notice_data)
    (st : state) :
  let metadata_path := PosixPath.join (case_dir_of c) "metadata.txt" in
  exists r clk fs tr,
    scrape_detail_page url_resolve w target c nd st = (r, State clk fs tr)
    /\ (fs = files st
        \/ exists text,
             fs = <[metadata_path := text]> (files st)
             \/ exists name content,
                  contains "/" name = false
                  /\ fs = <[PosixPath.join (case_dir_of c) name := content]>
                            (<[metadata_path := text]> (files st))).
Proof.
  cbv zeta. unfold scrape_detail_page.
  unfold bind at 1. rewrite requests_get_run.
  destruct (get_answer w (clock st) target) as [resp|e];
    [|eexists _, _, _, _; split; [reflexivity | left; reflexivity]].
  unfold bind at 1.
  destruct (raise_for_status_cases (page_status resp)
              (State (S (clock st)) (files st)
                 (trace st ++ [RequestsGet target false]))) as [-> | [e ->]];
    [|eexists _, _, _, _; split; [reflexivity | left; reflexivity]].
  unfold bind at 1. rewrite lift_run.
  destruct (pdf_link url_resolve (further_reading resp))
    as [[pdf_url pdf_filename]|e] eqn:Hlink;
    [|eexists _, _, _, _; split; [reflexivity | left; reflexivity]].
  unfold bind at 1. rewrite os_makedirs_run. cbn [clock files trace].
  destruct (makedirs_error w (S (clock st)) (case_dir_of c));
    [eexists _, _, _, _; split; [reflexivity | left; reflexivity]|].
  unfold bind at 1.
  destruct (open_error w (S (S (clock st)))
              (PosixPath.join (case_dir_of c) "metadata.txt")) eqn:Hopen.
  { erewrite write_metadata_fail by exact Hopen.
    eexists _, _, _, _; split; [reflexivity | left; reflexivity]. }
  erewrite write_metadata_run by exact Hopen.
  unfold bind at 1. unfold print, emit. cbn [clock files trace].
  match goal with
  | |- context [download_pdf w ?d ?u ?f ?s] =>
      pose proof (download_pdf_files d u f s) as Hfs;
      destruct (download_pdf w d u f s) as [r [clk fs tr]]
  end.
  cbn [snd files] in Hfs.
  exists r, clk, fs, tr. split; [reflexivity|].
  right. eexists. destruct Hfs as [Hfs | [content Hfs]].
  - left. exact Hfs.
  - right. exists pdf_filename, content. split; [|exact Hfs].
    exact (pdf_link_filename_no_slash url_resolve _ _ _ Hlink).
Qed.

(** [scrape_detail_page] changes files in its own case directory only:
    whatever the page and its link say, a path whose content differs after
    the call is [os.path.join(case_dir, name)] for a name without a slash. *)
Theorem detail_page_writes_only_in_its_case_dir (target : string) (c : Z)
    (nd : notice_data) (st : state) (path : string) :
  files (snd (scrape_detail_page url_resolve w target c nd st)) !! path
    <> files st !! path ->
  exists name,
    contains "/" name = false
    /\ path = PosixPath.join (case_dir_of c) name.
Proof.
  intros Hchanged.
  destruct (scrape_detail_page_files target c nd st)
    as (r & clk & fs & tr & Hrun
        & [Hfs | [text [Hfs | (name & content & Hname & Hfs)]]]);
    rewrite Hrun in Hchanged; cbn [snd files] in Hchanged;
    rewrite Hfs in Hchanged.
  - now destruct Hchanged.
  - destruct (decide (path = PosixPath.join (case_dir_of c) "metadata.txt"))
      as [-> | Hne].
    + exists "metadata.txt". split; reflexivity.
    + rewrite lookup_insert_ne in Hchanged by congruence. now destruct Hchanged.
  - destruct (decide (path = PosixPath.join (case_dir_of c) name))
      as [-> | Hne1]; [exists name; split; [assumption | reflexivity]|].
    destruct (decide (path = PosixPath.join (case_dir_of c) "metadata.txt"))
      as [-> | Hne2]; [exists "metadata.txt"; split; reflexivity|].
    rewrite !lookup_insert_ne in Hchanged by congruence.
    now destruct Hchanged.
Qed.

(** *** A record with a link, saved without error *)

(** When the page carries a non-empty [x-href] that [urljoin] accepts,
    whose last segment is not [metadata.txt], and nothing fails, the call
    returns normally and leaves two different files in the case
    directory: [metadata.txt] with the six lines, and the download under
    the last segment of the link, holding the chunks of the stream in
    order.  No other file is changed. *)
Theorem linked_document_is_stored (target : string) (c : Z)
    (nd : notice_data) (st : state) (resp : page_response)
    (attrs : gmap string string) (href pdf_url : string)
    (sr : stream_response) :
  let case_dir := case_dir_of c in
  let metadata_path := PosixPath.join case_dir "metadata.txt" in
  let pdf_path := PosixPath.join case_dir (PosixPath.basename href) in
  get_answer w (clock st) target = Ok resp ->
  ~ (400 <= page_status resp < 600) ->
  further_reading resp = Some attrs ->
  attrs !! "x-href" = Some href ->
  truthy href = true ->
  urljoin url_resolve BASE_URL href = Ok pdf_url ->
  pdf_url <> "Not found" ->
  PosixPath.basename href <> "metadata.txt" ->
  makedirs_error w (S (clock st)) case_dir = None ->
  open_error w (S (S (clock st))) metadata_path = None ->
  stream_answer w (S (S (S (clock st)))) pdf_url = Ok sr ->
  ~ (400 <= stream_status sr < 600) ->
  open_error w (S (S (S (S (clock st))))) pdf_path = None ->
  stream_error sr = None ->
  let run := scrape_detail_page url_resolve w target c nd st in
  fst run = Ok tt
  /\ metadata_path <> pdf_path
  /\ files (snd run) !! metadata_path
     = Some (Spec.metadata_text (organisation nd) (date_text (date nd))
               (sector nd) (decision nd) (abstract nd) pdf_url)
  /\ files (snd run) !! pdf_path
     = Some (String.concat "" (stream_chunks sr))
  /\ (forall path, path <> metadata_path -> path <> pdf_path ->
      files (snd run) !! path = files st !! path)
  /\ last (trace (snd run)) = Some (Print (MsgPdfSaved pdf_path)).
Proof.
  intros case_dir metadata_path pdf_path Hget Hstatus Htag Href
    Htruthy Hjoin Hurl Hname Hmk Hopen Hstream Hsstatus Hopen2 Hserr run.
  assert (pdf_link url_resolve (further_reading resp)
          = Ok (pdf_url, PosixPath.basename href)) as Hlink.
  { rewrite Htag. unfold pdf_link. rewrite Href, Hjoin, Htruthy. reflexivity. }
  assert (metadata_path <> pdf_path) as Hpaths.
  { intros Heq. apply Hname. symmetry.
    apply (join_inj case_dir);
      [reflexivity | apply basename_no_slash | exact Heq]. }
  subst run.
  rewrite (scrape_detail_page_to_download url_resolve w _ _ _ _ _ _ _
             Hget Hstatus Hlink Hmk Hopen).
  fold case_dir metadata_path.
  assert (String.eqb pdf_url "Not found" = false) as Hneq
    by (now apply String.eqb_neq).
  rewrite (download_pdf_run w _ _ _ _ Hneq). cbn [clock files trace].
  rewrite Hstream.
  destruct (Z.leb_spec 400 (stream_status sr)),
           (Z.ltb_spec (stream_status sr) 600);
    try lia; cbn [andb]; fold pdf_path; rewrite Hopen2; cbv zeta;
    rewrite Hserr; cbn [fst snd files trace];
    (split; [reflexivity|]; split; [exact Hpaths|]; split;
     [rewrite lookup_insert_ne by congruence; apply lookup_insert_eq|];
     split; [apply lookup_insert_eq|]; split;
     [intros path H1 H2; rewrite !lookup_insert_ne by congruence; reflexivity
     | apply last_snoc]).
Qed.

(** A link that [urljoin] rejects (line 179) fails the record before
    anything is stored: the exception leaves [scrape_detail_page] with the
    page request as the only thing done, no directory made and no file
    changed.  In the loop over the records the handler of line 85 reports
    it, and the next record is given the same case number. *)
Theorem unjoinable_link_stores_nothing (c : Z) (nd : notice_data)
    (rest : list notice_data) (st : state) (detail_url : string)
    (resp : page_response) (attrs : gmap string string) (href : string)
    (e : exn) :
  urljoin url_resolve BASE_URL (url nd) = Ok detail_url ->
  get_answer w (clock st) detail_url = Ok resp ->
  ~ (400 <= page_status resp < 600) ->
  further_reading resp = Some attrs ->
  attrs !! "x-href" = Some href ->
  urljoin url_resolve BASE_URL href = Raise e ->
  let st1 :=
    State (clock st) (files st) (trace st ++ [Print (MsgScrapingDetail detail_url)]) in
  scrape_detail_page url_resolve w detail_url c nd st1
  = (Raise e,
     State (S (clock st)) (files st)
       (trace st1 ++ [RequestsGet detail_url false]))
  /\ notices_loop url_resolve w (nd :: rest) c st
     = notices_loop url_resolve w rest c
         (State (S (clock st)) (files st)
            (trace st ++ [Print (MsgScrapingDetail detail_url);
                          RequestsGet detail_url false;
                          Print (MsgErrorDetail detail_url e)])).
Proof.
  intros Hu Hget Hstatus Htag Href Hjoin st1.
  assert (forall tr,
            scrape_detail_page url_resolve w detail_url c nd
              (State (clock st) (files st) tr)
            = (Raise e,
               State (S (clock st)) (files st)
                 (tr ++ [RequestsGet detail_url false]))) as Hpage.
  { intros tr. unfold scrape_detail_page.
    unfold bind at 1. rewrite requests_get_run. cbn [clock files trace].
    rewrite Hget.
    unfold bind at 1. rewrite raise_for_status_ok by assumption.
    unfold bind at 1. rewrite Htag. unfold pdf_link. rewrite Href, Hjoin.
    reflexivity. }
  split; [apply Hpage|].
  cbn [notices_loop]. rewrite Hu.
  unfold bind at 1. unfold print at 1, emit at 1.
  unfold bind at 1. unfold try_except. unfold bind at 1.
  rewrite Hpage.
  unfold bind, print, emit, ret. cbn [clock files trace].
  rewrite <- !List.app_assoc. reflexivity.
Qed.

(** An error of the file system on the download is not a request error:
    [download_pdf] lets it through, and so does [scrape_detail_page].  The
    case directory and its [metadata.txt] are there already. *)
Theorem unwritable_document_raises_after_metadata (target : string) (c : Z)
    (nd : notice_data) (st : state) (resp : page_response)
    (pdf_url pdf_filename : string) (sr : stream_response) (e : exn) :
  let case_dir := case_dir_of c in
  let metadata_path := PosixPath.join case_dir "metadata.txt" in
  let pdf_path := PosixPath.join case_dir pdf_filename in
  get_answer w (clock st) target = Ok resp ->
  ~ (400 <= page_status resp < 600) ->
  pdf_link url_resolve (further_reading resp) = Ok (pdf_url, pdf_filename) ->
  String.eqb pdf_url "Not found" = false ->
  makedirs_error w (S (clock st)) case_dir = None ->
  open_error w (S (S (clock st))) metadata_path = None ->
  stream_answer w (S (S (S (clock st)))) pdf_url = Ok sr ->
  ~ (400 <= stream_status sr < 600) ->
  open_error w (S (S (S (S (clock st))))) pdf_path = Some e ->
  is_RequestException e = false ->
  let run := scrape_detail_page url_resolve w target c nd st in
  fst run = Raise e
  /\ files (snd run)
     = <[metadata_path :=
           Spec.metadata_text (organisation nd) (date_text (date nd))
             (sector nd) (decision nd) (abstract nd) pdf_url]> (files st)
  /\ last (trace (snd run)) = Some (Open pdf_path).
Proof.
  intros case_dir metadata_path pdf_path Hget Hstatus Hlink Hneq Hmk Hopen
    Hstream Hsstatus Hopen2 Hexn run.
  subst run.
  rewrite (scrape_detail_page_to_download url_resolve w _ _ _ _ _ _ _
             Hget Hstatus Hlink Hmk Hopen).
  fold case_dir metadata_path.
  rewrite (download_pdf_run w _ _ _ _ Hneq). cbn [clock files trace].
  rewrite Hstream.
  destruct (Z.leb_spec 400 (stream_status sr)),
           (Z.ltb_spec (stream_status sr) 600);
    try lia; cbn [andb]; fold pdf_path; rewrite Hopen2, Hexn;
    cbn [fst snd files trace];
    (split; [reflexivity | split; [reflexivity |]]);
    rewrite last_app; reflexivity.
Qed.

End RecordFacts.

Lemma non_object_answer_witness :
  let e := Exn AttributeError "object has no attribute 'get'" in
  fst (get_data_from_json_api Examples.world_json_array 1 initial_state)
  = Raise e
  /\ page_body Examples.resolve Examples.world_json_array 1 2 1 1 initial_state
     = (Ok (Continue, 1),
        State (S (clock initial_state)) (files initial_state)
          (trace initial_state
             ++ [Print (MsgScrapingPage 1 2);
                 RequestsPost SEARCH_API_URL 1;
                 Print (MsgJsonData JsonOther);
                 Print (MsgErrorPage 1 e)])).
Proof.
  apply (non_object_answer_is_a_page_error Examples.resolve
           Examples.world_json_array 1 2 1 1 initial_state
           (SearchResponse 200 (Ok JsonOther))).
  - reflexivity.
  - simpl. lia.
  - reflexivity.
Defined.

Lemma detail_page_writes_witness :
  exists name,
    PyStr.contains "/" name = false
    /\ "ico-decision-notice/data/case-1/report.pdf"
       = PosixPath.join (case_dir_of 1) name.
Proof.
  apply (detail_page_writes_only_in_its_case_dir Examples.resolve
           (Examples.world_download "/docs/report.pdf")
           "https://ico.org.uk/decision/1" 1 Examples.a_notice initial_state
           "ico-decision-notice/data/case-1/report.pdf").
  vm_compute. discriminate.
Defined.

Lemma linked_document_witness :
  let metadata_path := PosixPath.join (case_dir_of 1) "metadata.txt" in
  let pdf_path :=
    PosixPath.join (case_dir_of 1) (PosixPath.basename "/docs/report.pdf") in
  let run :=
    scrape_detail_page Examples.resolve
      (Examples.world_download "/docs/report.pdf")
      "https://ico.org.uk/decision/1" 1 Examples.a_notice initial_state in
  fst run = Ok tt
  /\ metadata_path <> pdf_path
  /\ files (snd run) !! metadata_path
     = Some (Spec.metadata_text "Some Council" "2025-12-05"
               "Local government" "FOI 10: Upheld" "A complaint."
               "https://ico.org.uk/docs/report.pdf")
  /\ files (snd run) !! pdf_path
     = Some (String.concat "" ["%PDF-1.7"; "%%EOF"])
  /\ (forall path, path <> metadata_path -> path <> pdf_path ->
      files (snd run) !! path = files initial_state !! path)
  /\ last (trace (snd run)) = Some (Print (MsgPdfSaved pdf_path)).
Proof.
  apply (linked_document_is_stored Examples.resolve
           (Examples.world_download "/docs/report.pdf")
           "https://ico.org.uk/decision/1" 1 Examples.a_notice initial_state
           (PageResponse 200 (Some {[ "x-href" := "/docs/report.pdf" ]}))
           {[ "x-href" := "/docs/report.pdf" ]} "/docs/report.pdf"
           "https://ico.org.uk/docs/report.pdf"
           (StreamResponse 200 ["%PDF-1.7"; "%%EOF"] None)).
  - reflexivity.
  - simpl. lia.
  - reflexivity.
  - reflexivity.
  - reflexivity.
  - reflexivity.
  - discriminate.
  - vm_compute. discriminate.
  - reflexivity.
  - reflexivity.
  - reflexivity.
  - simpl. lia.
  - reflexivity.
  - reflexivity.
Defined.

Lemma unwritable_document_witness :
  let run :=
    scrape_detail_page Examples.resolve Examples.world_unwritable_document
      "https://ico.org.uk/decision/1" 1 Examples.a_notice initial_state in
  fst run = Raise (Exn OSError "No space left on device")
  /\ files (snd run)
     = <[PosixPath.join (case_dir_of 1) "metadata.txt" :=
           Spec.metadata_text "Some Council" "2025-12-05"
             "Local government" "FOI 10: Upheld" "A complaint."
             "https://ico.org.uk/docs/report.pdf"]> (files initial_state)
  /\ last (trace (snd run))
     = Some (Open (PosixPath.join (case_dir_of 1) "report.pdf")).
Proof.
  apply (unwritable_document_raises_after_metadata Examples.resolve
           Examples.world_unwritable_document
           "https://ico.org.uk/decision/1" 1 Examples.a_notice initial_state
           (PageResponse 200 (Some {[ "x-href" := "/docs/report.pdf" ]}))
           "https://ico.org.uk/docs/report.pdf" "report.pdf"
           (StreamResponse 200 ["%PDF-1.7"; "%%EOF"] None)
           (Exn OSError "No space left on device")).
  - reflexivity.
  - simpl. lia.
  - reflexivity.
  - reflexivity.
  - reflexivity.
  - reflexivity.
  - reflexivity.
  - simpl. lia.
  - reflexivity.
  - reflexivity.
Defined.

Lemma unjoinable_link_witness :
  let st1 :=
    State 0 ∅ [Print (MsgScrapingDetail "https://ico.org.uk/decision/1")] in
  scrape_detail_page Examples.resolve (Examples.world_download "//[")
    "https://ico.org.uk/decision/1" 1 Examples.a_notice st1
  = (Raise (Exn ValueError "Invalid IPv6 URL"),
     State 1 ∅
       (trace st1 ++ [RequestsGet "https://ico.org.uk/decision/1" false]))
  /\ notices_loop Examples.resolve (Examples.world_download "//[")
       (Examples.a_notice :: [Examples.a_notice]) 1 initial_state
     = notices_loop Examples.resolve (Examples.world_download "//[")
         [Examples.a_notice] 1
         (State 1 ∅
            [Print (MsgScrapingDetail "https://ico.org.uk/decision/1");
             RequestsGet "https://ico.org.uk/decision/1" false;
             Print (MsgErrorDetail "https://ico.org.uk/decision/1"
                      (Exn ValueError "Invalid IPv6 URL"))]).
Proof.
  apply (unjoinable_link_stores_nothing Examples.resolve
           (Examples.world_download "//[") 1 Examples.a_notice
           [Examples.a_notice] initial_state "https://ico.org.uk/decision/1"
           (PageResponse 200 (Some {[ "x-href" := "//[" ]}))
           {[ "x-href" := "//[" ]} "//["
           (Exn ValueError "Invalid IPv6 URL")).
  - reflexivity.
  - reflexivity.
  - simpl. lia.
  - reflexivity.
  - reflexivity.
  - reflexivity.
Defined.
